(** * The content-generation pipeline of [backend/app.py]

  A shallow embedding of the helper functions and route handlers of the
  Flask backend that turn a prompt into a video record and a quiz, summarise
  a transcript and score a submitted quiz:

  - [generate_manim_animation]   (code synthesis, extraction, rendering),
  - [generate_quiz_with_gemini]  (quiz synthesis),
  - [summarize_transcript_with_gemini],
  - [generate_video]             (the [/api/videos/generate] handler),
  - the scoring loop of [submit_quiz].

  Everything outside the Python process (the text-generation endpoint, the
  JSON decoder, the file system, the [manim] subprocess, [uuid4], the clock)
  is gathered in a record [world] of oracles; the handlers thread the
  in-memory store explicitly.  Text is modelled by the Standard Library
  strings, one character per code point below 256.  Console output
  ([print]) is not modelled. *)

From Stdlib Require Import ZArith NArith String Ascii List Bool.
From Stdlib Require Import Floats.PrimFloat Numbers.Cyclic.Int63.Uint63.
From stdpp Require Import gmap strings pretty.

Local Open Scope string_scope.

(** ** Python string operations used by the backend *)

Module Text.

Definition LF : string := String (ascii_of_nat 10) EmptyString.

(** [str.isspace] on one character: TAB..CR, FS..US, SPACE, NEL, NBSP. *)
Definition isspace (c : ascii) : bool :=
  let n := N_of_ascii c in
  ((9 <=? n) && (n <=? 13) || (28 <=? n) && (n <=? 32) || (n =? 133) || (n =? 160))%N.

(** [str.lower] on one character: A..Z and the capital letters of Latin-1. *)
Definition lower_char (c : ascii) : ascii :=
  let n := N_of_ascii c in
  if ((65 <=? n) && (n <=? 90) || (192 <=? n) && (n <=? 222) && negb (n =? 215))%N
  then ascii_of_N (n + 32) else c.

(** [s.lower()] *)
Fixpoint lower (s : string) : string :=
  match s with
  | EmptyString => EmptyString
  | String c s' => String (lower_char c) (lower s')
  end.

Definition nonempty (s : string) : bool :=
  match s with EmptyString => false | String _ _ => true end.

(** [s.split()]: the maximal runs of non-whitespace characters, in order.
    [word] is the run being read. *)
Fixpoint split_from (word s : string) : list string :=
  match s with
  | EmptyString => if nonempty word then [word] else []
  | String c s' =>
      if isspace c
      then (if nonempty word then word :: split_from EmptyString s'
            else split_from EmptyString s')
      else split_from (word +:+ String c EmptyString) s'
  end.

Definition split (s : string) : list string := split_from EmptyString s.

(** [s.lstrip()], [s.rstrip()], [s.strip()] *)
Fixpoint lstrip (s : string) : string :=
  match s with
  | EmptyString => EmptyString
  | String c s' => if isspace c then lstrip s' else s
  end.

Fixpoint rstrip (s : string) : string :=
  match s with
  | EmptyString => EmptyString
  | String c s' =>
      let r := rstrip s' in
      if isspace c && negb (nonempty r) then EmptyString else String c r
  end.

Definition strip (s : string) : string := rstrip (lstrip s).

(** [s[:n]] and [s[n:]] *)
Fixpoint take (n : nat) (s : string) : string :=
  match n, s with
  | S n', String c s' => String c (take n' s')
  | _, _ => EmptyString
  end.

Fixpoint drop (n : nat) (s : string) : string :=
  match n, s with
  | S n', String _ s' => drop n' s'
  | _, _ => s
  end.

(** [s.startswith(p)] and [s.endswith(p)] *)
Definition startswith (p s : string) : bool := String.prefix p s.

Definition endswith (p s : string) : bool :=
  (String.length p <=? String.length s)%nat
  && String.eqb (drop (String.length s - String.length p) s) p.

(** [s.replace(old, new)] for a one-character [old]. *)
Fixpoint replace (old : ascii) (new : string) (s : string) : string :=
  match s with
  | EmptyString => EmptyString
  | String c s' =>
      if Ascii.eqb c old then new +:+ replace old new s'
      else String c (replace old new s')
  end.

(** [os.path.join(a, b)] (posixpath). *)
Definition os_path_join (a b : string) : string :=
  if startswith "/" b then b
  else if negb (nonempty a) || endswith "/" a then a +:+ b
  else a +:+ "/" +:+ b.

End Text.

(** ** The regular expression of the code extractor

  [re.search(r"```python(.*?)```", code, re.DOTALL)]: the leftmost position
  where the opening tag matches and a closing fence follows; group 1 is the
  shortest text up to a closing fence (with DOTALL every character,
  newlines included, is matched by the dot). *)

Module Re.

Definition fence : string := "```".
Definition python_fence : string := "```python".

(** [(.*?)] followed by [close], anchored at the start of [s]. *)
Fixpoint lazy_until (close s : string) : option string :=
  if String.prefix close s then Some EmptyString
  else match s with
       | EmptyString => None
       | String c s' => option_map (String c) (lazy_until close s')
       end.

(** The whole pattern anchored at the start of [s]: group 1 if it matches. *)
Definition match_here (s : string) : option string :=
  if String.prefix python_fence s
  then lazy_until fence (Text.drop (String.length python_fence) s)
  else None.

(** [re.search]: group 1 of the leftmost match, if there is one. *)
Fixpoint search (s : string) : option string :=
  match match_here s with
  | Some g => Some g
  | None => match s with
            | EmptyString => None
            | String _ s' => search s'
            end
  end.

End Re.

(** ** JSON values as Python sees them after [json.loads] *)

#[warnings="-register-all"] Inductive json : Type :=
| JNull
| JBool (b : bool)
| JInt (z : Z)
| JFloat (f : float)
| JStr (s : string)
| JList (l : list json)
| JDict (d : gmap string json).

(** ** The world outside the process *)

(** Outcome of [gemini_client.chat.completions.create(...)] followed by
    [response.choices[0].message.content]: an exception, or the content,
    which the client types as an optional string. *)
Inductive completion : Type :=
| Raises
| Content (text : option string).

(** Outcome of [subprocess.run([...], capture_output=True, text=True, timeout=120)]. *)
Inductive run_result : Type :=
| TimeoutExpired
| FileNotFoundError
| OtherException
| CompletedProcess (returncode : Z) (stderr : string).

Record world : Type := World {
  (** [open("fine_tuned_system_prompt.txt").read()]; [None] when it raises *)
  read_system_prompt : option string;
  (** the model, by system message, user message and JSON response format *)
  chat_completion : string -> string -> bool -> completion;
  (** [json.loads]; [None] when it raises *)
  json_loads : string -> option json;
  (** [open(filename, "w").write(text)]; [false] when it raises *)
  write_file : string -> string -> bool;
  (** the [manim] run on a file with the given text *)
  run_manim : string -> string -> run_result;
  (** [os.listdir(app.config['VIDEO_FOLDER'])] after the run; [None] when it
      raises *)
  listdir : option (list string);
  (** [os.path.getmtime], as a count of clock ticks; [None] when it raises *)
  getmtime : string -> option Z;
  (** [uuid.uuid4().hex[:8]] of the n-th call *)
  uuid4_hex8 : nat -> string;
  (** [datetime.now().isoformat()] *)
  now_isoformat : string
}.

(** ** The in-memory store *)

Module Video.
Record t : Type := Make {
  video_id : string;
  user_id : string;
  title : string;
  thumbnail_url : string;
  video_file_url : string;
  caption_content : string;
  topic_tags : list string;
  created_at : string
}.
End Video.

(** [videos], [quizzes] and the number of [uuid4] calls made so far. *)
Record state : Type := State {
  videos : list Video.t;
  quizzes : gmap string json;
  uuid_calls : nat
}.

Definition VIDEO_FOLDER : string := "media/videos".

(** One call of [uuid.uuid4().hex[:8]]. *)
Definition uuid4 (w : world) (st : state) : string * state :=
  (uuid4_hex8 w (uuid_calls st),
   State (videos st) (quizzes st) (S (uuid_calls st))).

Definition generate_video_id (w : world) (st : state) : string * state :=
  let '(h, st') := uuid4 w st in ("vid_" +:+ h, st').

Definition generate_quiz_id (w : world) (st : state) : string * state :=
  let '(h, st') := uuid4 w st in ("quiz_" +:+ h, st').

(** ** Code extraction *)

(** [extracted_code = re.search(...)] and, when it matched,
    [extracted_code.group(1).strip()]; [None] is the branch that reports that
    no Python code was found. *)
Definition extract_code (code : string) : option string :=
  match Re.search code with
  | Some group1 => Some (Text.strip group1)
  | None => None
  end.

(** ** Rendering *)

(** [l.sort(key=key, reverse=True)]: stable, largest key first. *)
Fixpoint insert_reverse {A : Type} (key : A -> Z) (x : A) (l : list A) : list A :=
  match l with
  | [] => [x]
  | y :: l' => if (key x <? key y)%Z then y :: insert_reverse key x l' else x :: l
  end.

Definition sort_reverse {A : Type} (key : A -> Z) (l : list A) : list A :=
  foldr (insert_reverse key) [] l.

(** The file names kept by the comprehension over [os.listdir]. *)
Definition is_video_file (f : string) : bool :=
  Text.startswith "MainScene" f && Text.endswith ".mp4" f.

(** The keys of [l.sort(key=key)]: the key function is called on every
    element, in order, before any comparison; [None] when a call raises. *)
Fixpoint sort_keys {A : Type} (key : A -> option Z) (l : list A) : option (list (Z * A)) :=
  match l with
  | [] => Some []
  | x :: l' =>
      match key x with
      | None => None
      | Some k =>
          match sort_keys key l' with
          | None => None
          | Some keyed => Some ((k, x) :: keyed)
          end
      end
  end.

(** The branch taken when [result.returncode == 0].  It runs inside the
    inner [try]: when [os.listdir] or a call of [os.path.getmtime] raises,
    the handler of [Exception] returns [None]. *)
Definition find_video (w : world) : option string :=
  match listdir w with
  | None => None
  | Some names =>
      let video_files := filter (fun f => Is_true (is_video_file f)) names in
      match video_files with
      | [] => None
      | _ :: _ =>
          match sort_keys (fun x => getmtime w (Text.os_path_join VIDEO_FOLDER x)) video_files with
          | None => None
          | Some keyed =>
              match sort_reverse fst keyed with
              | (_, video_filename) :: _ =>
                  Some (Text.os_path_join VIDEO_FOLDER video_filename)
              | [] => None
              end
          end
      end
  end.

(** [generate_manim_animation(prompt)]: the path of the rendered video, or
    [None].  Every exception is caught by one of the two [try] blocks. *)
Definition generate_manim_animation (w : world) (prompt : string) (st : state)
  : option string * state :=
  match read_system_prompt w with
  | None => (None, st)
  | Some system_prompt =>
      match chat_completion w system_prompt prompt false with
      | Raises => (None, st)
      | Content None => (None, st)
      | Content (Some code) =>
          match extract_code code with
          | None => (None, st)
          | Some python_code =>
              let '(h, st') := uuid4 w st in
              let filename := "manim_animation_" +:+ h +:+ ".py" in
              if write_file w filename python_code then
                match run_manim w filename python_code with
                | CompletedProcess returncode _ =>
                    if (returncode =? 0)%Z then (find_video w, st') else (None, st')
                | TimeoutExpired => (None, st')
                | FileNotFoundError => (None, st')
                | OtherException => (None, st')
                end
              else (None, st')
          end
      end
  end.

(** ** Quiz synthesis *)

Definition quiz_system_prompt : string :=
  "You are an expert quiz creator for educational content. Based on the provided transcript, "
  +:+ Text.LF +:+
  "        generate a JSON object representing a quiz. The quiz must have exactly 4 multiple-choice questions. "
  +:+ Text.LF +:+
  "        Each question object inside the 'questions' array must have the following properties: "
  +:+ Text.LF +:+
  "        'id' (a unique number), 'text' (the question string), 'options' (an array of 4 unique strings: "
  +:+ Text.LF +:+
  "        one correct answer and three plausible distractors), and 'answer' (the string of the correct answer, "
  +:+ Text.LF +:+
  "        which must also be present in the 'options' array). Do not output any text, markdown, or code outside of the single JSON object.".

(** The user message: the transcript between two rules. *)
Definition quiz_user_query (caption_content : string) : string :=
  "Here is the transcript:" +:+ Text.LF +:+ Text.LF +:+ "---" +:+ Text.LF
  +:+ caption_content +:+ Text.LF +:+ "---".

(** The dictionary built in the [except] branch. *)
Definition fallback_quiz (w : world) (video_id : string) (st : state) : json * state :=
  let '(quiz_id, st') := generate_quiz_id w st in
  (JDict (<["quiz_id" := JStr quiz_id]>
          (<["video_id" := JStr video_id]>
           (<["questions" := JList []]> ∅))), st').

(** [generate_quiz_with_gemini(caption_content, video_id)].  The right-hand
    side [generate_quiz_id()] is evaluated before the item assignment, which
    raises [TypeError] on anything but a dictionary. *)
Definition generate_quiz_with_gemini (w : world) (caption_content video_id : string)
  (st : state) : json * state :=
  let user_query := quiz_user_query caption_content in
  match chat_completion w quiz_system_prompt user_query true with
  | Raises => fallback_quiz w video_id st
  | Content None => fallback_quiz w video_id st
  | Content (Some text) =>
      match json_loads w text with
      | None => fallback_quiz w video_id st
      | Some quiz_data =>
          let '(quiz_id, st') := generate_quiz_id w st in
          match quiz_data with
          | JDict d =>
              (JDict (<["video_id" := JStr video_id]> (<["quiz_id" := JStr quiz_id]> d)), st')
          | _ => fallback_quiz w video_id st'
          end
      end
  end.

(** ** Summaries *)

Definition summary_system_prompt : string :=
  "You are an expert at summarizing educational content. Provide 3-4 key bullet points summarizing the most important information from the following transcript. Use a '-' for each bullet point.".

Definition summary_user_query (caption_content : string) : string :=
  "Transcript:" +:+ Text.LF +:+ Text.LF +:+ caption_content.

(** [summarize_transcript_with_gemini(caption_content)]; [x or y] takes [y]
    when [x] is [None] or the empty string. *)
Definition summarize_transcript_with_gemini (w : world) (caption_content : string) : string :=
  let user_query := summary_user_query caption_content in
  match chat_completion w summary_system_prompt user_query false with
  | Raises => "Sorry, there was an error generating the summary."
  | Content None => "Could not generate summary."
  | Content (Some text) =>
      if Text.nonempty text then text else "Could not generate summary."
  end.

(** ** The [/api/videos/generate] handler *)

(** The JSON body of the request: the two fields read by the handler, [None]
    when the key is absent. *)
Module Request.
Record t : Type := Make {
  prompt : option string;
  user_id : option string
}.
End Request.

Inductive body : Type :=
| ErrorBody (error : string)
| GeneratedBody (video : Video.t) (quiz : json).

(** [return jsonify(body), status] *)
Record response : Type := Response {
  response_body : body;
  status : Z
}.

(** Python truthiness of an optional string: [Some s] when it is neither
    [None] nor empty. *)
Definition truthy (x : option string) : option string :=
  match x with
  | Some s => if Text.nonempty s then Some s else None
  | None => None
  end.

Definition videos_append (v : Video.t) (st : state) : state :=
  State (videos st ++ [v]) (quizzes st) (uuid_calls st).

Definition quizzes_set (video_id : string) (quiz : json) (st : state) : state :=
  State (videos st) (<[video_id := quiz]> (quizzes st)) (uuid_calls st).

Definition generate_video (w : world) (data : Request.t) (st : state) : response * state :=
  match truthy (Request.prompt data), truthy (Request.user_id data) with
  | Some prompt, Some user_id =>
      let '(video_id, st1) := generate_video_id w st in
      let title :=
        if (30 <? String.length prompt)%nat then Text.take 30 prompt +:+ "..." else prompt in
      let caption_content :=
        "This is a generated video about " +:+ prompt
        +:+ ". The video explains the key concepts and provides detailed information on the topic." in
      let '(video_file_path, st2) := generate_manim_animation w prompt st1 in
      let video_file_url :=
        match truthy video_file_path with
        | None => "mock_video.mp4"
        | Some path => path
        end in
      let new_video :=
        Video.Make video_id user_id title
          ("https://placehold.co/600x400/1a202c/ffffff?text=" +:+ Text.replace " " "+" title)
          video_file_url caption_content
          (filter (fun tag => (3 < String.length tag)%nat) (Text.split (Text.lower prompt)))
          (now_isoformat w) in
      let st3 := videos_append new_video st2 in
      let '(quiz, st4) := generate_quiz_with_gemini w caption_content video_id st3 in
      (Response (GeneratedBody new_video quiz) 200, quizzes_set video_id quiz st4)
  | _, _ => (Response (ErrorBody "Prompt and user_id are required") 400, st)
  end.

(** ** Scoring *)

(** A question and a quiz of the shape the system prompt asks the model for. *)
Module Question.
Record t : Type := Make {
  id : Z;
  text : string;
  options : list string;
  answer : string
}.
End Question.

Module Quiz.
Record t : Type := Make {
  quiz_id : string;
  video_id : string;
  questions : list Question.t
}.
End Quiz.

(** A Python number: the percentage is the [int] 0 or a [float]. *)
Inductive number : Type :=
| PyInt (z : Z)
| PyFloat (f : float).

Module ScoreResult.
Record t : Type := Make {
  correct : nat;
  total : nat;
  percentage : number;
  passed : bool
}.
End ScoreResult.

(** [answers.get(key) == answer] for a string [answer]: [None], and every
    JSON value that is not a string, differs from it. *)
Definition get_eq_str (submitted : option json) (answer : string) : bool :=
  match submitted with
  | Some (JStr s) => String.eqb s answer
  | _ => false
  end.

(** The loop over [quiz['questions']]; [str] of an [int] is its decimal form. *)
Definition count_correct (answers : gmap string json) (questions : list Question.t) : nat :=
  fold_left
    (fun correct_count question =>
       if get_eq_str (answers !! pretty (Question.id question)) (Question.answer question)
       then S correct_count else correct_count)
    questions 0%nat.

(** [a / b] on two counts (exact below 2^53). *)
Definition truediv (a b : nat) : float :=
  (of_uint63 (Uint63.of_Z (Z.of_nat a)) / of_uint63 (Uint63.of_Z (Z.of_nat b)))%float.

(** [x >= 70] *)
Definition ge_70 (x : number) : bool :=
  match x with
  | PyInt z => (70 <=? z)%Z
  | PyFloat f => PrimFloat.leb 70%float f
  end.

(** The part of [submit_quiz] that follows the lookup of the quiz. *)
Definition submit_quiz_score (quiz : Quiz.t) (answers : gmap string json) : ScoreResult.t :=
  let correct_count := count_correct answers (Quiz.questions quiz) in
  let total_questions := length (Quiz.questions quiz) in
  let percentage :=
    if (0 <? total_questions)%nat
    then PyFloat (truediv correct_count total_questions * 100)%float
    else PyInt 0 in
  ScoreResult.Make correct_count total_questions percentage (ge_70 percentage).

(** ** The vocabulary of the specification *)

(** [p] occurs somewhere in [s]. *)
Definition contains (p s : string) : Prop :=
  exists pre post, s = pre +:+ p +:+ post.

(** The same as a test: [p] is a prefix of [s] or occurs further on. *)
Fixpoint occurs (p s : string) : bool :=
  String.prefix p s
  || match s with
     | EmptyString => false
     | String _ s' => occurs p s'
     end.

(** The text holds a fenced block tagged [python]: an opening tag and,
    after it, a closing fence. *)
Definition has_python_block (text : string) : Prop :=
  exists pre body post,
    text = pre +:+ Re.python_fence +:+ body +:+ Re.fence +:+ post.

(** A file name that starts with the entry-point symbol and ends with the
    video extension. *)
Definition is_match (f : string) : Prop :=
  (exists rest, f = "MainScene" +:+ rest) /\ (exists front, f = front +:+ ".mp4").

(** The folder could be listed and [f] is one of its names. *)
Definition listed (w : world) (f : string) : Prop :=
  exists names, listdir w = Some names /\ f ∈ names.

(** The modification time of the file [f] of the video folder is [t]. *)
Definition modified (w : world) (f : string) (t : Z) : Prop :=
  getmtime w ("media/videos/" +:+ f) = Some t.

(** The name of the source file written by the n-th [uuid4] call. *)
Definition source_file (w : world) (n : nat) : string :=
  "manim_animation_" +:+ uuid4_hex8 w n +:+ ".py".

(** The code synthesizer answered with the text [code]. *)
Definition synthesized (w : world) (prompt code : string) : Prop :=
  exists system_prompt,
    read_system_prompt w = Some system_prompt
    /\ chat_completion w system_prompt prompt false = Content (Some code).

(** A stage of the video pipeline fails, the source file being named by the
    n-th [uuid4] call. *)
Inductive pipeline_failure (w : world) (prompt : string) (n : nat) : Prop :=
| model_error :
    (forall code, ~ synthesized w prompt code) -> pipeline_failure w prompt n
| no_code_block code :
    synthesized w prompt code -> extract_code code = None ->
    pipeline_failure w prompt n
| source_not_written code python_code :
    synthesized w prompt code -> extract_code code = Some python_code ->
    write_file w (source_file w n) python_code = false ->
    pipeline_failure w prompt n
| tool_missing code python_code :
    synthesized w prompt code -> extract_code code = Some python_code ->
    run_manim w (source_file w n) python_code = FileNotFoundError ->
    pipeline_failure w prompt n
| render_timeout code python_code :
    synthesized w prompt code -> extract_code code = Some python_code ->
    run_manim w (source_file w n) python_code = TimeoutExpired ->
    pipeline_failure w prompt n
| render_raises code python_code :
    synthesized w prompt code -> extract_code code = Some python_code ->
    run_manim w (source_file w n) python_code = OtherException ->
    pipeline_failure w prompt n
| render_failed code python_code returncode stderr :
    synthesized w prompt code -> extract_code code = Some python_code ->
    run_manim w (source_file w n) python_code = CompletedProcess returncode stderr ->
    returncode <> 0%Z ->
    pipeline_failure w prompt n
| artifact_not_produced code python_code stderr :
    synthesized w prompt code -> extract_code code = Some python_code ->
    run_manim w (source_file w n) python_code = CompletedProcess 0 stderr ->
    (forall f, listed w f -> ~ is_match f) ->
    pipeline_failure w prompt n
| artifact_not_read code python_code stderr f :
    synthesized w prompt code -> extract_code code = Some python_code ->
    run_manim w (source_file w n) python_code = CompletedProcess 0 stderr ->
    listed w f -> is_match f -> getmtime w ("media/videos/" +:+ f) = None ->
    pipeline_failure w prompt n.

(** The [questions] sequence of a quiz dictionary. *)
Definition quiz_questions (quiz : json) : option (list json) :=
  match quiz with
  | JDict d => match d !! "questions" with
               | Some (JList qs) => Some qs
               | _ => None
               end
  | _ => None
  end.

(** A quiz is populated when its question sequence is not empty. *)
Definition populated (quiz : json) : Prop :=
  exists q qs, quiz_questions quiz = Some (q :: qs).

(** The invariant of a question: four pairwise distinct option strings, the
    answer among them. *)
Definition question_invariant (q : json) : Prop :=
  exists d (options : list string) (answer : string),
    q = JDict d
    /\ d !! "options" = Some (JList (JStr <$> options))
    /\ d !! "answer" = Some (JStr answer)
    /\ answer ∈ options /\ length options = 4%nat /\ NoDup options.

(** The tags as the specification words them: the tokens of the prompt,
    lowercased, those longer than three characters. *)
Definition prompt_tags (prompt : string) : list string :=
  filter (fun t => (3 < String.length t)%nat) (Text.lower <$> Text.split prompt).

(** The submitted answer for a question is exactly its answer string. *)
Definition answered_correctly (answers : gmap string json) (q : Question.t) : Prop :=
  answers !! pretty (Question.id q) = Some (JStr (Question.answer q)).

#[global] Instance answered_correctly_dec answers q : Decision (answered_correctly answers q).
Proof.
  unfold answered_correctly.
  destruct (answers !! pretty (Question.id q)) as [[| | | |s| |]|];
    try (right; discriminate).
  destruct (decide (s = Question.answer q)) as [->|Hne].
  - left; reflexivity.
  - right; intros [= E]; exact (Hne E).
Defined.

(** ** Sample worlds, requests and quizzes *)

Module Sample.

(** A model reply with two fenced blocks: the text before the first opening
    tag, the inside of the first block and what follows its closing fence. *)
Definition preamble : string := "Here is the scene." +:+ Text.LF.

Definition first_body : string :=
  Text.LF +:+ "class MainScene(Scene): pass" +:+ Text.LF.

Definition variant : string :=
  Text.LF +:+ "A variant:" +:+ Text.LF
  +:+ "```python" +:+ Text.LF +:+ "class Other(Scene): pass" +:+ Text.LF +:+ "```".

Definition two_blocks : string :=
  preamble +:+ Re.python_fence +:+ first_body +:+ Re.fence +:+ variant.

Definition question (id : Z) (text : string) (options : list string) (answer : string) : json :=
  JDict (<["id" := JInt id]>
         (<["text" := JStr text]>
          (<["options" := JList (JStr <$> options)]>
           (<["answer" := JStr answer]> ∅)))).

Definition q1 : json := question 1 "What bends light?" ["gravity"; "sound"; "heat"; "wind"] "gravity".
Definition q2 : json := question 2 "What forms a black hole?" ["a star"; "a comet"; "a moon"; "a cloud"] "a star".
Definition q3 : json := question 3 "What escapes it?" ["nothing"; "light"; "dust"; "gas"] "nothing".
(** Two equal options and an answer that is not among them. *)
Definition q4_bad : json := question 4 "Who named it?" ["Wheeler"; "Wheeler"] "Hawking".

Definition q4 : json := question 4 "Who named it?" ["Wheeler"; "Hawking"; "Penrose"; "Thorne"] "Wheeler".

Definition four_questions : gmap string json :=
  <["questions" := JList [q1; q2; q3; q4]]> ∅.

Definition three_questions : gmap string json :=
  <["questions" := JList [q1; q2; q3]]> ∅.

Definition bad_options : gmap string json :=
  <["questions" := JList [q1; q2; q3; q4_bad]]> ∅.

(** A world given by the three model replies (code, quiz, summary), the
    decoded quiz reply, the outcome of the [manim] run and the listing of
    the video folder; a longer path is a more recent file. *)
Definition make (code quiz summary : completion) (decoded : option json)
  (run : run_result) (files : list string) : world :=
  World (Some "You write Manim scenes.")
    (fun system_prompt _ json_object =>
       if json_object then quiz
       else if String.eqb system_prompt summary_system_prompt then summary
       else code)
    (fun _ => decoded)
    (fun _ _ => true)
    (fun _ _ => run)
    (Some files)
    (fun path => Some (Z.of_nat (String.length path)))
    (fun n => "00c0ffe" +:+ pretty n)
    "2025-01-01T12:00:00".

Definition folder : list string :=
  ["notes.txt"; "MainScene.mp4"; "MainScene_v2.mp4"; "MainScene.png"; "Intro.mp4"].

(** Everything works and the quiz has four well-formed questions. *)
Definition studio : world :=
  make (Content (Some two_blocks)) (Content (Some "quiz"))
    (Content (Some "- gravity bends light")) (Some (JDict four_questions))
    (CompletedProcess 0 "") folder.

(** The quiz reply decodes to three questions only. *)
Definition short_quiz : world :=
  make (Content (Some two_blocks)) (Content (Some "quiz"))
    (Content None) (Some (JDict three_questions))
    (CompletedProcess 0 "") folder.

(** The quiz reply decodes to four questions, one of them ill-formed. *)
Definition careless : world :=
  make (Content (Some two_blocks)) (Content (Some "quiz"))
    (Content (Some "")) (Some (JDict bad_options))
    (CompletedProcess 0 "") folder.

(** The rendering tool is not installed and the model is down for the rest. *)
Definition no_manim : world :=
  make (Content (Some two_blocks)) Raises Raises None FileNotFoundError [].

Definition st0 : state := State [] ∅ 0.

Definition request (prompt user_id : string) : Request.t :=
  Request.Make (Some prompt) (Some user_id).

Definition quiz4 : Quiz.t :=
  Quiz.Make "quiz_00c0ffe1" "vid_00c0ffe0"
    [ Question.Make 1 "What bends light?" ["gravity"; "sound"; "heat"; "wind"] "gravity";
      Question.Make 2 "What forms a black hole?" ["a star"; "a comet"; "a moon"; "a cloud"] "a star";
      Question.Make 3 "What escapes it?" ["nothing"; "light"; "dust"; "gas"] "nothing";
      Question.Make 4 "Who named it?" ["Wheeler"; "Hawking"; "Penrose"; "Thorne"] "Wheeler" ].

(** Three right answers; the fourth differs by case only. *)
Definition answers3 : gmap string json :=
  <["1" := JStr "gravity"]> (<["2" := JStr "a star"]>
  (<["3" := JStr "nothing"]> (<["4" := JStr "wheeler"]> ∅))).

End Sample.

(** ** The other handlers *)

(** [return jsonify(value), status] and
    [return jsonify({'error': error}), status]. *)
Inductive answer (A : Type) : Type :=
| Json (value : A) (status : Z)
| JsonError (error : string) (status : Z).

Arguments Json {A} value status.
Arguments JsonError {A} error status.

(** The [users] dictionary, in the order of its values. *)
Module User.
Record t : Type := Make {
  user_id : string;
  name : string;
  email : string;
  password : string
}.
End User.

Definition users : list User.t :=
  [User.Make "user123" "Alex Doe" "alex.doe@example.com" "password123"].

(** The body of a successful login: the user without the password. *)
Module Account.
Record t : Type := Make {
  user_id : string;
  name : string;
  email : string
}.
End Account.

(** [login()] over the users [us]; [email] and [password] are the values
    [data.get] finds in the body, [None] included.  A user dictionary is
    never empty, hence truthy. *)
Definition login (us : list User.t) (email password : option json) : answer Account.t :=
  match List.find (fun u => get_eq_str email (User.email u)) us with
  | Some user =>
      if get_eq_str password (User.password user)
      then Json (Account.Make (User.user_id user) (User.name user) (User.email user)) 200
      else JsonError "Invalid credentials" 401
  | None => JsonError "Invalid credentials" 401
  end.

(** The two videos the store starts with; [started] is the time of import
    (one reading of the clock stands for the two readings of the source). *)
Definition initial_videos (started : string) : list Video.t :=
  [ Video.Make "vid001" "user123" "The History of Space Exploration"
      "https://placehold.co/600x400/1a202c/ffffff?text=Space+History"
      "media/videos/space_history.mp4"
      "The history of space exploration spans centuries, beginning with early astronomical observations and culminating in crewed missions to the Moon and robotic exploration of the solar system."
      ["space"; "exploration"; "history"] started;
    Video.Make "vid002" "user123" "Deep Dive into Neural Networks"
      "https://placehold.co/600x400/1a202c/ffffff?text=AI+Deep+Dive"
      "media/videos/neural_networks.mp4"
      "Neural networks are computing systems inspired by the human brain. They consist of interconnected nodes that process information and can learn to perform tasks by considering examples."
      ["ai"; "neural networks"; "machine learning"] started ].

Definition initial_state (started : string) : state :=
  State (initial_videos started) ∅ 0.

(** [get_user_videos(user_id)] *)
Definition get_user_videos (user_id : string) (st : state) : answer (list Video.t) :=
  Json (filter (fun v => Video.user_id v = user_id) (videos st)) 200.

(** An entry of the list answered to an empty search. *)
Module Listing.
Record t : Type := Make {
  video_id : string;
  user_id : string;
  title : string;
  thumbnail_url : string;
  created_at : string
}.
End Listing.

(** The two placeholders; the clock of the world stands for both of their
    readings. *)
Definition popular_videos (w : world) : list Listing.t :=
  [ Listing.Make "vid003" "user456" "Beginners Guide to Quantum Physics"
      "https://placehold.co/600x400/3d4451/ffffff?text=Quantum+Physics" (now_isoformat w);
    Listing.Make "vid004" "user789" "Understanding Photosynthesis"
      "https://placehold.co/600x400/3d4451/ffffff?text=Photosynthesis" (now_isoformat w) ].

Inductive search_result : Type :=
| PopularVideos (l : list Listing.t)
| FilteredVideos (l : list Video.t).

(** The condition of the comprehension in [search_videos]; [x in s] on two
    strings is the substring test. *)
Definition video_matches (query : string) (v : Video.t) : bool :=
  occurs query (Text.lower (Video.title v))
  || existsb (fun tag => occurs query tag) (Video.topic_tags v)
  || occurs query (Text.lower (Video.caption_content v)).

(** [search_videos()]; [q] is the query argument, [None] when it is absent.
    Both branches answer 200. *)
Definition search_videos (w : world) (q : option string) (st : state) : search_result :=
  let query := Text.lower (default "" q) in
  if Text.nonempty query
  then FilteredVideos (filter (fun v => Is_true (video_matches query v)) (videos st))
  else PopularVideos (popular_videos w).

(** [next((v for v in videos if v['video_id'] == video_id), None)] *)
Definition video_by_id (video_id : string) (st : state) : option Video.t :=
  List.find (fun v => String.eqb (Video.video_id v) video_id) (videos st).

(** [get_video_details(video_id)]; the body wraps the video under the key
    [video]. *)
Definition get_video_details (video_id : string) (st : state) : answer Video.t :=
  match video_by_id video_id st with
  | Some video => Json video 200
  | None => JsonError "Video not found" 404
  end.

(** [get_video_quiz(video_id)] *)
Definition get_video_quiz (w : world) (video_id : string) (st : state)
  : answer json * state :=
  match quizzes st !! video_id with
  | Some quiz => (Json quiz 200, st)
  | None =>
      match video_by_id video_id st with
      | Some video =>
          let '(quiz, st') :=
            generate_quiz_with_gemini w (Video.caption_content video) video_id st in
          (Json quiz 200, quizzes_set video_id quiz st')
      | None => (JsonError "Video not found" 404, st)
      end
  end.

(** [get_video_summary(video_id)]; the body wraps the text under the key
    [summary]. *)
Definition get_video_summary (w : world) (video_id : string) (st : state) : answer string :=
  match video_by_id video_id st with
  | Some video => Json (summarize_transcript_with_gemini w (Video.caption_content video)) 200
  | None => JsonError "Video not found" 404
  end.

(** ** More vocabulary *)

(** Every character of [s] passes the test [P]. *)
Fixpoint all_chars (P : ascii -> bool) (s : string) : bool :=
  match s with
  | EmptyString => true
  | String c s' => P c && all_chars P s'
  end.

Definition whitespace_free (s : string) : Prop :=
  all_chars (fun c => negb (Text.isspace c)) s = true.

Definition space_free (s : string) : Prop :=
  all_chars (fun c => negb (Ascii.eqb c " ")) s = true.

(** The narration the handler writes for a prompt. *)
Definition caption_of (prompt : string) : string :=
  "This is a generated video about " +:+ prompt
  +:+ ". The video explains the key concepts and provides detailed information on the topic.".

(** A second world, in which the model only raises. *)
Module Later.

Definition silent : world :=
  Sample.make Raises Raises Raises None TimeoutExpired [].

Definition started : string := "2024-12-31T08:00:00".

(** The render succeeds, but the one matching name of the folder is a link
    to a file that is gone: its modification time cannot be read. *)
Definition dangling : world :=
  World (Some "You write Manim scenes.")
    (fun _ _ _ => Content (Some Sample.two_blocks))
    (fun _ => None)
    (fun _ _ => true)
    (fun _ _ => CompletedProcess 0 "")
    (Some ["MainScene_gone.mp4"])
    (fun _ => None)
    (fun n => "00c0ffe" +:+ pretty n)
    "2025-01-01T12:00:00".

End Later.

(** * Properties *)

(** ** Strings *)

Section TextFacts.

Import Text.

Lemma app_cons c s t : String c s +:+ t = String c (s +:+ t).
Proof. reflexivity. Qed.


Lemma app_assoc' s t u : (s +:+ t) +:+ u = s +:+ t +:+ u.
Proof.
  induction s as [|c s IH]; [reflexivity|].
  rewrite !app_cons, IH. reflexivity.
Qed.

Lemma length_app' s t : String.length (s +:+ t) = (String.length s + String.length t)%nat.
Proof.
  induction s as [|c s IH]; [reflexivity|].
  rewrite app_cons. simpl. rewrite IH. reflexivity.
Qed.

Lemma length_take n s : String.length (take n s) = Nat.min n (String.length s).
Proof.
  revert s. induction n as [|n IH]; intros [|c s]; simpl; try reflexivity.
  rewrite IH. reflexivity.
Qed.

Lemma nonempty_true s : nonempty s = true <-> s <> "".
Proof. destruct s; simpl; split; intros; congruence. Qed.

Lemma prefix_iff p s : String.prefix p s = true <-> exists r, s = p +:+ r.
Proof.
  revert s. induction p as [|c p IH]; intros s.
  - split; [intros _; exists s; reflexivity|]. intros _. destruct s; reflexivity.
  - destruct s as [|d s]; simpl.
    + split; [discriminate|]. intros [r Hr]. rewrite app_cons in Hr. discriminate.
    + destruct (ascii_dec c d) as [->|Hne].
      * rewrite IH. split; intros [r Hr]; exists r.
        -- rewrite app_cons, Hr. reflexivity.
        -- rewrite app_cons in Hr. congruence.
      * split; [discriminate|]. intros [r Hr]. rewrite app_cons in Hr. congruence.
Qed.

Lemma isspace_lower_char c : isspace (lower_char c) = isspace c.
Proof. destruct c as [[] [] [] [] [] [] [] []]; reflexivity. Qed.

Lemma lower_app s t : lower (s +:+ t) = lower s +:+ lower t.
Proof.
  induction s as [|c s IH]; [reflexivity|].
  rewrite app_cons. simpl. rewrite IH. reflexivity.
Qed.

Lemma length_lower s : String.length (lower s) = String.length s.
Proof. induction s as [|c s IH]; simpl; congruence. Qed.

Lemma nonempty_lower s : nonempty (lower s) = nonempty s.
Proof. destruct s; reflexivity. Qed.

(** Lowering the case commutes with splitting at whitespace. *)
Lemma split_from_lower word s :
  split_from (lower word) (lower s) = lower <$> split_from word s.
Proof.
  revert word. induction s as [|c s IH]; intros word; simpl.
  - rewrite nonempty_lower. destruct (nonempty word); reflexivity.
  - rewrite isspace_lower_char, nonempty_lower.
    destruct (isspace c).
    + change EmptyString with (lower EmptyString) at 1 2.
      destruct (nonempty word); rewrite IH; reflexivity.
    + rewrite <- IH, lower_app. reflexivity.
Qed.

Lemma split_lower s : split (lower s) = lower <$> split s.
Proof. exact (split_from_lower EmptyString s). Qed.

Lemma filter_length_lower (l : list string) :
  filter (fun t => (3 < String.length t)%nat) (lower <$> l)
  = lower <$> filter (fun t => (3 < String.length t)%nat) l.
Proof.
  induction l as [|x l IH]; [reflexivity|].
  rewrite fmap_cons, !filter_cons, length_lower.
  destruct (decide (3 < String.length x)%nat); rewrite IH; reflexivity.
Qed.

End TextFacts.

(** ** The generation handler: validation, title and tags *)

Lemma truthy_Some s : s <> "" -> truthy (Some s) = Some s.
Proof. intros H. unfold truthy. destruct s; [congruence | reflexivity]. Qed.

Lemma truthy_falsy x : x = None \/ x = Some "" -> truthy x = None.
Proof. intros [-> | ->]; reflexivity. Qed.

(** What the handler answers once both fields are truthy: a record built
    from the prompt, whatever the pipeline and the quiz synthesizer return. *)
Lemma generate_video_accepts w prompt user_id st :
  prompt <> "" -> user_id <> "" ->
  exists video quiz st',
    generate_video w (Request.Make (Some prompt) (Some user_id)) st
    = (Response (GeneratedBody video quiz) 200, st')
    /\ Video.user_id video = user_id
    /\ Video.title video
       = (if (30 <? String.length prompt)%nat then Text.take 30 prompt +:+ "..." else prompt)
    /\ Video.topic_tags video
       = filter (fun tag => (3 < String.length tag)%nat) (Text.split (Text.lower prompt))
    /\ Video.video_file_url video
       = match truthy (generate_manim_animation w prompt (generate_video_id w st).2).1 with
         | Some path => path
         | None => "mock_video.mp4"
         end.
Proof.
  intros Hp Hu. unfold generate_video. cbn [Request.prompt Request.user_id].
  rewrite (truthy_Some _ Hp), (truthy_Some _ Hu).
  destruct (generate_video_id w st) as [video_id st1]. cbn [snd fst].
  destruct (generate_manim_animation w prompt st1) as [path st2]. cbn [fst].
  destruct (generate_quiz_with_gemini _ _ _ _) as [quiz st4].
  eexists _, _, _. split; [reflexivity|]. cbn. auto.
Qed.

(** C3, as the code has it.  For every non-empty prompt and non-empty owner
    id, [generate_video] answers 200 with a video record whose title has at
    most 33 characters, is the prompt itself when the prompt has at most 30,
    and whose topic tags are the whitespace-separated tokens of the prompt,
    lowercased, of length greater than 3, in their order. *)
Theorem generate_video_title_and_tags w prompt user_id st :
  prompt <> "" -> user_id <> "" ->
  exists video quiz st',
    generate_video w (Request.Make (Some prompt) (Some user_id)) st
    = (Response (GeneratedBody video quiz) 200, st')
    /\ (String.length (Video.title video) <= 33)%nat
    /\ ((String.length prompt <= 30)%nat -> Video.title video = prompt)
    /\ Video.topic_tags video = prompt_tags prompt.
Proof.
  intros Hp Hu.
  destruct (generate_video_accepts w prompt user_id st Hp Hu)
    as (video & quiz & st' & Hgen & _ & Htitle & Htags & _).
  exists video, quiz, st'. split; [exact Hgen|]. repeat split.
  - rewrite Htitle. destruct (Nat.ltb_spec 30 (String.length prompt)) as [Hlt|Hge].
    + rewrite length_app', length_take.
      change (String.length "...") with 3%nat. lia.
    + lia.
  - intros Hle. rewrite Htitle.
    destruct (Nat.ltb_spec 30 (String.length prompt)); [lia | reflexivity].
  - rewrite Htags. unfold prompt_tags. rewrite split_lower. reflexivity.
Qed.

Lemma generate_video_title_and_tags_witness :
  exists video quiz st',
    generate_video Sample.studio (Sample.request "explain how black holes form" "u1") Sample.st0
    = (Response (GeneratedBody video quiz) 200, st')
    /\ (String.length (Video.title video) <= 33)%nat
    /\ ((String.length "explain how black holes form" <= 30)%nat
        -> Video.title video = "explain how black holes form")
    /\ Video.topic_tags video = prompt_tags "explain how black holes form".
Proof.
  apply (generate_video_title_and_tags Sample.studio "explain how black holes form" "u1" Sample.st0);
    discriminate.
Defined.

(** C3 as stated fails on a prompt that is present and empty: the handler
    answers 400 and builds no video record. *)
Lemma generate_video_empty_prompt_rejected :
  Request.prompt (Sample.request "" "u1") = Some ""
  /\ Request.user_id (Sample.request "" "u1") = Some "u1"
  /\ generate_video Sample.studio (Sample.request "" "u1") Sample.st0
     = (Response (ErrorBody "Prompt and user_id are required") 400, Sample.st0).
Proof. repeat split. Qed.

(** The end-to-end scenario of the specification. *)
Example black_holes_scenario :
  exists video quiz st',
    generate_video Sample.studio (Sample.request "explain how black holes form" "u1") Sample.st0
    = (Response (GeneratedBody video quiz) 200, st')
    /\ Video.title video = "explain how black holes form"
    /\ Video.topic_tags video = ["explain"; "black"; "holes"; "form"].
Proof. eexists _, _, _. vm_compute. repeat split. Qed.

(** C10.  A request whose prompt or user id is absent, or present and
    empty, is answered 400 with the error body; the store is returned as it
    was: no video is appended and no quiz is stored. *)
Theorem generate_video_rejects_missing_or_empty w data st :
  Request.prompt data = None \/ Request.prompt data = Some ""
  \/ Request.user_id data = None \/ Request.user_id data = Some "" ->
  generate_video w data st
  = (Response (ErrorBody "Prompt and user_id are required") 400, st).
Proof.
  intros H. unfold generate_video.
  destruct H as [H | [H | H]].
  - rewrite (truthy_falsy _ (or_introl H)). reflexivity.
  - rewrite (truthy_falsy _ (or_intror H)). reflexivity.
  - rewrite (truthy_falsy (Request.user_id data) H).
    destruct (truthy (Request.prompt data)); reflexivity.
Qed.

Lemma generate_video_rejects_missing_or_empty_witness :
  generate_video Sample.studio (Request.Make (Some "black holes") (Some "")) Sample.st0
  = (Response (ErrorBody "Prompt and user_id are required") 400, Sample.st0).
Proof.
  apply (generate_video_rejects_missing_or_empty Sample.studio
           (Request.Make (Some "black holes") (Some "")) Sample.st0).
  right; right; right; reflexivity.
Defined.

(** ** Suffixes, file names and paths *)

Lemma drop_app_length a b : Text.drop (String.length a) (a +:+ b) = b.
Proof. induction a as [|c a IH]; [destruct b; reflexivity | exact IH]. Qed.

Lemma take_drop n s : Text.take n s +:+ Text.drop n s = s.
Proof.
  revert s. induction n as [|n IH]; intros [|c s]; try reflexivity.
  cbn [Text.take Text.drop]. rewrite app_cons, IH. reflexivity.
Qed.

Lemma endswith_iff p s : Text.endswith p s = true <-> exists front, s = front +:+ p.
Proof.
  unfold Text.endswith. rewrite andb_true_iff, Nat.leb_le, String.eqb_eq. split.
  - intros [_ H]. remember (String.length s - String.length p)%nat as n.
    exists (Text.take n s). rewrite <- H. symmetry. apply take_drop.
  - intros [front ->]. rewrite length_app'. split; [lia|].
    replace (String.length front + String.length p - String.length p)%nat
      with (String.length front) by lia.
    apply drop_app_length.
Qed.

Lemma is_video_file_iff f : is_video_file f = true <-> is_match f.
Proof.
  unfold is_video_file, is_match, Text.startswith.
  rewrite andb_true_iff, prefix_iff, endswith_iff. reflexivity.
Qed.

Lemma video_path f : is_match f -> Text.os_path_join VIDEO_FOLDER f = "media/videos/" +:+ f.
Proof. intros [[rest ->] _]. reflexivity. Qed.

(** ** The stable descending sort *)

Section Sorting.

Context {A : Type} (key : A -> Z).

Lemma insert_reverse_perm (x : A) (l : list A) : insert_reverse key x l ≡ₚ x :: l.
Proof.
  induction l as [|y l IH]; [reflexivity|]. simpl.
  destruct (key x <? key y)%Z; [|reflexivity].
  rewrite IH. apply Permutation_swap.
Qed.

Lemma sort_reverse_perm (l : list A) : sort_reverse key l ≡ₚ l.
Proof.
  induction l as [|x l IH]; [reflexivity|].
  unfold sort_reverse in *. simpl. rewrite insert_reverse_perm, IH. reflexivity.
Qed.

(** The head of the sorted list is the first element of the list whose key
    is the largest. *)
Lemma sort_reverse_head (x0 : A) (l : list A) :
  exists l1 x l2 rest,
    x0 :: l = (l1 ++ x :: l2)%list
    /\ sort_reverse key (x0 :: l) = x :: rest
    /\ (forall y, y ∈ l1 -> (key y < key x)%Z)
    /\ (forall y, y ∈ l2 -> (key y <= key x)%Z).
Proof.
  revert x0. induction l as [|a l IH]; intros x0.
  - exists [], x0, [], []. repeat split; intros y Hy; inversion Hy.
  - destruct (IH a) as (l1 & x & l2 & rest & Hl & Hs & H1 & H2).
    change (sort_reverse key (x0 :: a :: l))
      with (insert_reverse key x0 (sort_reverse key (a :: l))).
    rewrite Hs. simpl. destruct (Z.ltb_spec (key x0) (key x)) as [Hlt|Hge].
    + exists (x0 :: l1), x, l2, (insert_reverse key x0 rest).
      rewrite Hl. repeat split; [|exact H2].
      intros y [->|Hy]%elem_of_cons; auto.
    + exists [], x0, (a :: l), (x :: rest). repeat split.
      * intros y Hy. inversion Hy.
      * intros y Hy. rewrite Hl in Hy.
        apply elem_of_app in Hy as [Hy|[->|Hy]%elem_of_cons].
        -- specialize (H1 y Hy). lia.
        -- exact Hge.
        -- specialize (H2 y Hy). lia.
Qed.

Lemma sort_reverse_head_max (x0 : A) (l : list A) :
  exists x rest,
    sort_reverse key (x0 :: l) = x :: rest
    /\ x ∈ x0 :: l
    /\ forall y, y ∈ x0 :: l -> (key y <= key x)%Z.
Proof.
  destruct (sort_reverse_head x0 l) as (l1 & x & l2 & rest & Hl & Hs & H1 & H2).
  exists x, rest. split; [exact Hs|]. rewrite Hl. split.
  - apply elem_of_app. right. left.
  - intros y [Hy|[->|Hy]%elem_of_cons]%elem_of_app.
    + specialize (H1 y Hy). lia.
    + lia.
    + auto.
Qed.

End Sorting.

(** ** Artifact discovery *)

Lemma sort_keys_Some {A : Type} (key : A -> option Z) (l : list A) keyed :
  sort_keys key l = Some keyed ->
  snd <$> keyed = l /\ forall p, p ∈ keyed -> key p.2 = Some p.1.
Proof.
  revert keyed. induction l as [|x l IH]; intros keyed; cbn.
  - intros [= <-]. split; [reflexivity|]. intros p Hp. inversion Hp.
  - destruct (key x) as [k|] eqn:Hk; [|discriminate].
    destruct (sort_keys key l) as [keyed'|]; [|discriminate].
    intros [= <-]. destruct (IH keyed' eq_refl) as [Hl Hkeys].
    split; [cbn; rewrite Hl; reflexivity|].
    intros p [->|Hp]%elem_of_cons; [exact Hk | exact (Hkeys p Hp)].
Qed.

Lemma sort_keys_None {A : Type} (key : A -> option Z) (l : list A) :
  sort_keys key l = None <-> exists x, x ∈ l /\ key x = None.
Proof.
  induction l as [|x l IH]; cbn.
  - split; [discriminate|]. intros (x & Hx & _). inversion Hx.
  - destruct (key x) as [k|] eqn:Hk.
    + destruct (sort_keys key l) as [keyed|].
      * split; [discriminate|]. intros (y & [->|Hy]%elem_of_cons & Hnone); [congruence|].
        destruct IH as [_ IH]. discriminate IH. eauto.
      * split; [|reflexivity]. intros _.
        destruct (proj1 IH eq_refl) as (y & Hy & Hnone).
        exists y. split; [right|]; assumption.
    + split; [|reflexivity]. intros _. exists x. split; [left | exact Hk].
Qed.

Lemma elem_of_video_files (names : list string) g :
  g ∈ filter (fun f => Is_true (is_video_file f)) names <-> is_match g /\ g ∈ names.
Proof. rewrite list_elem_of_filter, Is_true_true, is_video_file_iff. reflexivity. Qed.

(** What a path returned by the scan says about the folder. *)
Lemma find_video_Some_inv w path :
  find_video w = Some path ->
  exists names l1 f l2 t,
    listdir w = Some names
    /\ filter (fun f => Is_true (is_video_file f)) names = (l1 ++ f :: l2)%list
    /\ path = "media/videos/" +:+ f
    /\ listed w f /\ is_match f /\ modified w f t
    /\ (forall g, g ∈ l1 -> exists u, modified w g u /\ (u < t)%Z)
    /\ (forall g, g ∈ l2 -> exists u, modified w g u /\ (u <= t)%Z).
Proof.
  unfold find_video, listed, modified.
  destruct (listdir w) as [names|] eqn:Hnames; [|discriminate].
  pose proof (elem_of_video_files names) as Hmem.
  destruct (filter _ names) as [|x0 l] eqn:E; [discriminate|].
  destruct (sort_keys _ (x0 :: l)) as [keyed|] eqn:Hkeyed; [|discriminate].
  apply sort_keys_Some in Hkeyed as [Hsnd Hkeys].
  destruct keyed as [|p0 keyed]; [discriminate|].
  destruct (sort_reverse_head fst p0 keyed) as (d1 & p & d2 & rest & Hd & Hs & H1 & H2).
  rewrite Hs. destruct p as [t f]. intros [= <-].
  assert (Hkey : forall q, q ∈ (d1 ++ (t, f) :: d2)%list ->
                   (is_match q.2 /\ q.2 ∈ names)
                   /\ getmtime w ("media/videos/" +:+ q.2) = Some q.1).
  { intros q Hq. rewrite <- Hd in Hq.
    assert (Hm : is_match q.2 /\ q.2 ∈ names).
    { apply Hmem. rewrite <- Hsnd. apply list_elem_of_fmap. eauto. }
    split; [exact Hm|]. rewrite <- (video_path _ (proj1 Hm)). apply (Hkeys q Hq). }
  rewrite Hd, fmap_app, fmap_cons in Hsnd. cbn [snd] in Hsnd.
  destruct (Hkey (t, f)) as [[Hfm Hfin] Hft]; [apply elem_of_app; right; left|].
  exists names, (snd <$> d1), f, (snd <$> d2), t.
  split; [reflexivity|]. split; [rewrite E; symmetry; exact Hsnd|].
  split; [apply video_path, Hfm|].
  split; [exists names; split; [reflexivity | exact Hfin]|].
  split; [exact Hfm|]. split; [exact Hft|]. split.
  - intros g (q & -> & Hq)%list_elem_of_fmap. exists q.1. split.
    + apply Hkey, elem_of_app. left. exact Hq.
    + exact (H1 q Hq).
  - intros g (q & -> & Hq)%list_elem_of_fmap. exists q.1. split.
    + apply Hkey, elem_of_app. right. right. exact Hq.
    + exact (H2 q Hq).
Qed.

(** The scan finds nothing when no matching name is listed, also when the
    folder cannot be listed. *)
Lemma find_video_none w :
  (forall f, listed w f -> ~ is_match f) -> find_video w = None.
Proof.
  intros H. destruct (find_video w) as [path|] eqn:E; [|reflexivity].
  destruct (find_video_Some_inv _ _ E) as (? & ? & f & ? & ? & _ & _ & _ & Hf & Hm & _).
  destruct (H f Hf Hm).
Qed.

(** The scan finds nothing when the time of a matching file cannot be read. *)
Lemma find_video_not_read w f :
  listed w f -> is_match f -> getmtime w ("media/videos/" +:+ f) = None ->
  find_video w = None.
Proof.
  intros (names & Hnames & Hin) Hm Hnone. unfold find_video. rewrite Hnames.
  destruct (filter _ names) as [|x0 l] eqn:E; [reflexivity|].
  replace (sort_keys _ (x0 :: l)) with (@None (list (Z * string))); [reflexivity|].
  symmetry. apply sort_keys_None. exists f. split.
  - rewrite <- E. apply elem_of_video_files. auto.
  - rewrite (video_path _ Hm). exact Hnone.
Qed.

(** When every matching file can be read, the newest one is found. *)
Lemma find_video_some w :
  (exists f, listed w f /\ is_match f) ->
  (forall g, listed w g -> is_match g -> exists u, modified w g u) ->
  exists f t,
    find_video w = Some ("media/videos/" +:+ f)
    /\ listed w f /\ is_match f /\ modified w f t
    /\ forall g u, listed w g -> is_match g -> modified w g u -> (u <= t)%Z.
Proof.
  intros (f0 & (names & Hnames & Hin0) & Hm0) Hread.
  destruct (find_video w) as [path|] eqn:E.
  - destruct (find_video_Some_inv _ _ E)
      as (names' & l1 & f & l2 & t & Hnames' & Hl & -> & Hf & Hm & Ht & H1 & H2).
    exists f, t. split; [reflexivity|]. split; [exact Hf|]. split; [exact Hm|].
    split; [exact Ht|]. intros g u (names'' & Hn & Hg) Hgm Hu.
    assert (names'' = names') as -> by congruence.
    assert (Hg' : g ∈ (l1 ++ f :: l2)%list)
      by (rewrite <- Hl; apply elem_of_video_files; auto).
    unfold modified in *.
    apply elem_of_app in Hg' as [Hg'|[->|Hg']%elem_of_cons].
    + destruct (H1 g Hg') as (u' & Hu' & Hlt). assert (u' = u) by congruence. lia.
    + assert (u = t) by congruence. lia.
    + destruct (H2 g Hg') as (u' & Hu' & Hle). assert (u' = u) by congruence. lia.
  - exfalso. unfold find_video in E. rewrite Hnames in E.
    destruct (filter _ names) as [|x0 l] eqn:El.
    { assert (H : f0 ∈ filter (fun f => Is_true (is_video_file f)) names)
        by (apply elem_of_video_files; auto).
      rewrite El in H. inversion H. }
    destruct (sort_keys _ (x0 :: l)) as [keyed|] eqn:Hkeyed.
    + pose proof (sort_keys_Some _ _ _ Hkeyed) as [Hsnd _].
      destruct keyed as [|p0 keyed]; [discriminate|].
      destruct (sort_reverse_head fst p0 keyed) as (? & [? ?] & ? & ? & _ & Hs & _).
      rewrite Hs in E. discriminate.
    + apply sort_keys_None in Hkeyed as (g & Hg & Hnone).
      rewrite <- El in Hg. apply elem_of_video_files in Hg as [Hgm Hg].
      destruct (Hread g) as [u Hu]; [exists names; auto | exact Hgm |].
      unfold modified in Hu. rewrite (video_path _ Hgm) in Hnone. congruence.
Qed.

(** ** The rendering pipeline *)

(** Once code has been synthesized and extracted, the result is decided by
    the write of the source file, the run and the scan of the folder. *)
Lemma generate_manim_animation_rendered w prompt st code python_code :
  synthesized w prompt code ->
  extract_code code = Some python_code ->
  (generate_manim_animation w prompt st).1
  = if write_file w (source_file w (uuid_calls st)) python_code
    then match run_manim w (source_file w (uuid_calls st)) python_code with
         | CompletedProcess returncode _ =>
             if (returncode =? 0)%Z then find_video w else None
         | _ => None
         end
    else None.
Proof.
  intros (system_prompt & Hread & Hchat) Hcode.
  unfold generate_manim_animation, source_file.
  rewrite Hread, Hchat, Hcode. cbn [uuid4].
  destruct (write_file _ _ _); [|reflexivity].
  destruct (run_manim _ _ _) as [| | |returncode stderr]; try reflexivity.
  destruct (returncode =? 0)%Z; reflexivity.
Qed.

(** Every failing stage makes [generate_manim_animation] return [None]. *)
Lemma pipeline_failure_None w prompt st :
  pipeline_failure w prompt (uuid_calls st) ->
  (generate_manim_animation w prompt st).1 = None.
Proof.
  intros [Hmodel
         | code Hs Hcode
         | code py Hs Hcode Hwrite
         | code py Hs Hcode Hrun
         | code py Hs Hcode Hrun
         | code py Hs Hcode Hrun
         | code py rc stderr Hs Hcode Hrun Hrc
         | code py stderr Hs Hcode Hrun Hnone
         | code py stderr f Hs Hcode Hrun Hlisted Hm Hnone].
  - unfold generate_manim_animation.
    destruct (read_system_prompt w) as [system_prompt|] eqn:Hread; [|reflexivity].
    destruct (chat_completion w system_prompt prompt false) as [|[code|]] eqn:Hchat;
      try reflexivity.
    exfalso. apply (Hmodel code). exists system_prompt. auto.
  - destruct Hs as (system_prompt & Hread & Hchat).
    unfold generate_manim_animation. rewrite Hread, Hchat, Hcode. reflexivity.
  - rewrite (generate_manim_animation_rendered _ _ _ _ _ Hs Hcode), Hwrite. reflexivity.
  - rewrite (generate_manim_animation_rendered _ _ _ _ _ Hs Hcode), Hrun.
    destruct (write_file _ _ _); reflexivity.
  - rewrite (generate_manim_animation_rendered _ _ _ _ _ Hs Hcode), Hrun.
    destruct (write_file _ _ _); reflexivity.
  - rewrite (generate_manim_animation_rendered _ _ _ _ _ Hs Hcode), Hrun.
    destruct (write_file _ _ _); reflexivity.
  - rewrite (generate_manim_animation_rendered _ _ _ _ _ Hs Hcode), Hrun.
    apply Z.eqb_neq in Hrc. rewrite Hrc.
    destruct (write_file _ _ _); reflexivity.
  - rewrite (generate_manim_animation_rendered _ _ _ _ _ Hs Hcode), Hrun.
    cbn. rewrite (find_video_none w Hnone).
    destruct (write_file _ _ _); reflexivity.
  - rewrite (generate_manim_animation_rendered _ _ _ _ _ Hs Hcode), Hrun.
    cbn. rewrite (find_video_not_read w f Hlisted Hm Hnone).
    destruct (write_file _ _ _); reflexivity.
Qed.

(** C4.  Whenever a stage of the video pipeline fails (the model call, the
    extraction of a code block, the write of the source file, the rendering
    tool missing, timing out, raising or exiting with a non-zero code, no
    artifact in the folder, or an artifact whose modification time cannot be
    read), [generate_video] still answers 200 with a video record, and its
    file reference is the sentinel [mock_video.mp4]. *)
Theorem generate_video_falls_back w prompt user_id st :
  prompt <> "" -> user_id <> "" ->
  pipeline_failure w prompt (S (uuid_calls st)) ->
  exists video quiz st',
    generate_video w (Request.Make (Some prompt) (Some user_id)) st
    = (Response (GeneratedBody video quiz) 200, st')
    /\ Video.video_file_url video = "mock_video.mp4".
Proof.
  intros Hp Hu Hfail.
  destruct (generate_video_accepts w prompt user_id st Hp Hu)
    as (video & quiz & st' & Hgen & _ & _ & _ & Hurl).
  exists video, quiz, st'. split; [exact Hgen|].
  rewrite Hurl, pipeline_failure_None; [reflexivity | exact Hfail].
Qed.

Lemma generate_video_falls_back_witness :
  exists video quiz st',
    generate_video Sample.no_manim (Request.Make (Some "black holes") (Some "u1")) Sample.st0
    = (Response (GeneratedBody video quiz) 200, st')
    /\ Video.video_file_url video = "mock_video.mp4".
Proof.
  apply (generate_video_falls_back Sample.no_manim "black holes" "u1" Sample.st0);
    [discriminate | discriminate |].
  apply (tool_missing _ _ _ Sample.two_blocks "class MainScene(Scene): pass").
  - exists "You write Manim scenes.". split; reflexivity.
  - reflexivity.
  - reflexivity.
Defined.

(** C8, as the code has it.  After a render that exits with code zero, the
    result is [None] when no name of the video folder starts with
    [MainScene] and ends with [.mp4] (also when the folder cannot be
    listed), and when the modification time of a matching file cannot be
    read; when the time of every matching file can be read, it is the path,
    under the video folder, of a matching file whose modification time is
    the largest among the matching files. *)
Theorem generate_manim_animation_newest_artifact w prompt st code python_code stderr :
  synthesized w prompt code ->
  extract_code code = Some python_code ->
  write_file w (source_file w (uuid_calls st)) python_code = true ->
  run_manim w (source_file w (uuid_calls st)) python_code = CompletedProcess 0 stderr ->
  ((forall f, listed w f -> ~ is_match f) ->
   (generate_manim_animation w prompt st).1 = None)
  /\ ((exists f, listed w f /\ is_match f /\ getmtime w ("media/videos/" +:+ f) = None) ->
      (generate_manim_animation w prompt st).1 = None)
  /\ ((exists f, listed w f /\ is_match f) ->
      (forall g, listed w g -> is_match g -> exists u, modified w g u) ->
      exists f t,
        (generate_manim_animation w prompt st).1 = Some ("media/videos/" +:+ f)
        /\ listed w f /\ is_match f /\ modified w f t
        /\ forall g u, listed w g -> is_match g -> modified w g u -> (u <= t)%Z).
Proof.
  intros Hs Hcode Hwrite Hrun.
  rewrite (generate_manim_animation_rendered _ _ _ _ _ Hs Hcode), Hwrite, Hrun.
  cbn. split; [|split].
  - apply find_video_none.
  - intros (f & Hf & Hm & Hnone). exact (find_video_not_read w f Hf Hm Hnone).
  - apply find_video_some.
Qed.

Lemma generate_manim_animation_newest_artifact_witness :
  ((forall f, listed Sample.studio f -> ~ is_match f) ->
   (generate_manim_animation Sample.studio "black holes" Sample.st0).1 = None)
  /\ ((exists f, listed Sample.studio f /\ is_match f
                 /\ getmtime Sample.studio ("media/videos/" +:+ f) = None) ->
      (generate_manim_animation Sample.studio "black holes" Sample.st0).1 = None)
  /\ ((exists f, listed Sample.studio f /\ is_match f) ->
      (forall g, listed Sample.studio g -> is_match g -> exists u, modified Sample.studio g u) ->
      exists f t,
        (generate_manim_animation Sample.studio "black holes" Sample.st0).1
        = Some ("media/videos/" +:+ f)
        /\ listed Sample.studio f /\ is_match f /\ modified Sample.studio f t
        /\ forall g u, listed Sample.studio g -> is_match g -> modified Sample.studio g u ->
             (u <= t)%Z).
Proof.
  apply (generate_manim_animation_newest_artifact Sample.studio "black holes" Sample.st0
           Sample.two_blocks "class MainScene(Scene): pass" "").
  - exists "You write Manim scenes.". split; reflexivity.
  - reflexivity.
  - reflexivity.
  - reflexivity.
Defined.

(** C8 as stated fails when a matching name is listed whose modification
    time cannot be read: the render exits with code zero, the folder lists a
    matching file, and no path is returned. *)
Lemma unreadable_artifact_gives_no_path :
  synthesized Later.dangling "black holes" Sample.two_blocks
  /\ extract_code Sample.two_blocks = Some "class MainScene(Scene): pass"
  /\ run_manim Later.dangling (source_file Later.dangling (uuid_calls Sample.st0))
       "class MainScene(Scene): pass" = CompletedProcess 0 ""
  /\ listdir Later.dangling = Some ["MainScene_gone.mp4"]
  /\ is_match "MainScene_gone.mp4"
  /\ (generate_manim_animation Later.dangling "black holes" Sample.st0).1 = None.
Proof.
  split; [exists "You write Manim scenes."; split; reflexivity|].
  repeat (split; [reflexivity|]).
  split; [|reflexivity].
  split; [exists "_gone.mp4" | exists "MainScene_gone"]; reflexivity.
Qed.

(** On the sample folder the newest matching file is found. *)
Example newest_artifact_sample :
  (generate_manim_animation Sample.studio "black holes" Sample.st0).1
  = Some "media/videos/MainScene_v2.mp4".
Proof. reflexivity. Qed.

(** ** The code extractor *)

Lemma occurs_iff p s : occurs p s = true <-> contains p s.
Proof.
  unfold contains. split.
  - induction s as [|c s IH].
    + cbn [occurs]. rewrite orb_false_r, prefix_iff. intros [r ->].
      exists "", r. reflexivity.
    + cbn [occurs]. rewrite orb_true_iff, prefix_iff. intros [[r ->]|H].
      * exists "", r. reflexivity.
      * destruct (IH H) as (pre & post & ->). exists (String c pre), post. reflexivity.
  - intros (pre & post & ->). induction pre as [|c pre IH].
    + assert (H : String.prefix p (p +:+ post) = true) by (apply prefix_iff; eauto).
      change ("" +:+ p +:+ post) with (p +:+ post).
      destruct (p +:+ post); cbn [occurs]; rewrite H; reflexivity.
    + rewrite app_cons. cbn [occurs]. rewrite IH. apply orb_true_r.
Qed.

Lemma not_contains p s : occurs p s = false -> ~ contains p s.
Proof. intros H Hc. apply occurs_iff in Hc. congruence. Qed.

Lemma not_contains_tail p c s : ~ contains p (String c s) -> ~ contains p s.
Proof.
  intros H (pre & post & ->). apply H. exists (String c pre), post. reflexivity.
Qed.

(** A prefix of [a +:+ b] no longer than [a] is a prefix of [a]. *)
Lemma prefix_short p a b :
  String.prefix p (a +:+ b) = true -> (String.length p <= String.length a)%nat ->
  String.prefix p a = true.
Proof.
  revert a. induction p as [|c p IH]; intros [|d a]; cbn [String.length]; intros H Hlen.
  - reflexivity.
  - reflexivity.
  - lia.
  - rewrite app_cons in H. simpl in *. destruct (ascii_dec c d); [|discriminate].
    apply IH; [exact H | lia].
Qed.

Lemma prefix_contains p a : String.prefix p a = true -> contains p a.
Proof. intros [r ->]%prefix_iff. exists "", r. reflexivity. Qed.

Lemma lazy_until_unfold close s :
  Re.lazy_until close s
  = if String.prefix close s then Some EmptyString
    else match s with
         | EmptyString => None
         | String c s' => option_map (String c) (Re.lazy_until close s')
         end.
Proof. destruct s; reflexivity. Qed.

Lemma search_unfold s :
  Re.search s
  = match Re.match_here s with
    | Some g => Some g
    | None => match s with
              | EmptyString => None
              | String _ s' => Re.search s'
              end
    end.
Proof. destruct s; reflexivity. Qed.

(** A lazy match stops in front of a closing fence. *)
Lemma lazy_until_Some close s g :
  Re.lazy_until close s = Some g -> exists post, s = g +:+ close +:+ post.
Proof.
  revert g. induction s as [|c s IH]; intros g; rewrite lazy_until_unfold.
  - destruct (String.prefix close "") eqn:E; [|discriminate].
    intros [= <-]. apply prefix_iff in E. exact E.
  - destruct (String.prefix close (String c s)) eqn:E.
    + intros [= <-]. apply prefix_iff in E. exact E.
    + destruct (Re.lazy_until close s) as [g'|]; [|discriminate].
      intros [= <-]. destruct (IH g' eq_refl) as [post ->].
      exists post. reflexivity.
Qed.

(** A match of the pattern exhibits a fenced block. *)
Lemma search_Some s g :
  Re.search s = Some g ->
  exists pre post, s = pre +:+ Re.python_fence +:+ g +:+ Re.fence +:+ post.
Proof.
  induction s as [|c s IH]; rewrite search_unfold; unfold Re.match_here.
  - discriminate.
  - destruct (String.prefix Re.python_fence (String c s)) eqn:E.
    + apply prefix_iff in E as [r E]. rewrite E, drop_app_length.
      destruct (Re.lazy_until Re.fence r) as [g'|] eqn:Hl.
      * intros [= <-]. apply lazy_until_Some in Hl as [post ->].
        exists "", post. reflexivity.
      * rewrite <- E. intros H. destruct (IH H) as (pre & post & ->).
        exists (String c pre), post. reflexivity.
    + intros H. destruct (IH H) as (pre & post & ->).
      exists (String c pre), post. reflexivity.
Qed.

(** The lazy match takes the text up to the first closing fence. *)
Lemma lazy_until_first body rest :
  ~ contains Re.fence (body +:+ "``") ->
  Re.lazy_until Re.fence (body +:+ Re.fence +:+ rest) = Some body.
Proof.
  induction body as [|c body IH]; intros H; rewrite lazy_until_unfold.
  - replace (String.prefix Re.fence ("" +:+ Re.fence +:+ rest)) with true; [reflexivity|].
    symmetry. apply prefix_iff. exists rest. reflexivity.
  - destruct (String.prefix Re.fence _) eqn:E.
    + exfalso. apply H, prefix_contains.
      apply (prefix_short _ _ ("`" +:+ rest)).
      * rewrite app_assoc'. exact E.
      * rewrite length_app'. cbn. lia.
    + rewrite app_cons, IH; [reflexivity|].
      rewrite app_cons in H. exact (not_contains_tail _ _ _ H).
Qed.

(** The search takes the leftmost opening tag. *)
Lemma search_first pre body rest :
  ~ contains Re.python_fence (pre +:+ "```pytho") ->
  ~ contains Re.fence (body +:+ "``") ->
  Re.search (pre +:+ Re.python_fence +:+ body +:+ Re.fence +:+ rest) = Some body.
Proof.
  intros Hpre Hbody. induction pre as [|c pre IH]; rewrite search_unfold; unfold Re.match_here.
  - replace (String.prefix Re.python_fence _) with true.
    + change ("" +:+ Re.python_fence +:+ body +:+ Re.fence +:+ rest)
        with (Re.python_fence +:+ body +:+ Re.fence +:+ rest).
      rewrite drop_app_length, (lazy_until_first body rest Hbody). reflexivity.
    + symmetry. apply prefix_iff. eexists. reflexivity.
  - destruct (String.prefix Re.python_fence _) eqn:E.
    + exfalso. apply Hpre, prefix_contains.
      apply (prefix_short _ _ ("n" +:+ body +:+ Re.fence +:+ rest)).
      * rewrite app_assoc'. exact E.
      * rewrite length_app'. cbn. lia.
    + rewrite app_cons. apply IH.
      rewrite app_cons in Hpre. exact (not_contains_tail _ _ _ Hpre).
Qed.

(** C5.  The extractor finds no code in a text without a fenced block
    tagged [python]; and in a text made of [pre], the opening tag, [body], a
    closing fence and [rest], where the opening tag does not occur earlier
    and [body] runs up to the first closing fence, it returns [body]
    trimmed, whatever [rest] holds, further blocks included. *)
Theorem extract_code_first_block :
  (forall text, ~ has_python_block text -> extract_code text = None)
  /\ (forall pre body rest,
        ~ contains Re.python_fence (pre +:+ "```pytho") ->
        ~ contains Re.fence (body +:+ "``") ->
        extract_code (pre +:+ Re.python_fence +:+ body +:+ Re.fence +:+ rest)
        = Some (Text.strip body)).
Proof.
  split.
  - intros text Hno. unfold extract_code.
    destruct (Re.search text) as [g|] eqn:E; [|reflexivity].
    exfalso. apply Hno. destruct (search_Some _ _ E) as (pre & post & ->).
    exists pre, g, post. reflexivity.
  - intros pre body rest Hpre Hbody. unfold extract_code.
    rewrite (search_first pre body rest Hpre Hbody). reflexivity.
Qed.

Lemma has_python_block_contains text :
  has_python_block text -> contains Re.python_fence text.
Proof. intros (pre & body & post & ->). exists pre. eexists. reflexivity. Qed.

Lemma extract_code_first_block_witness :
  extract_code "Sorry, I cannot animate that." = None
  /\ extract_code
       (Sample.preamble +:+ Re.python_fence +:+ Sample.first_body +:+ Re.fence
        +:+ Sample.variant)
     = Some (Text.strip Sample.first_body).
Proof.
  split.
  - apply (proj1 extract_code_first_block).
    intros H%has_python_block_contains. revert H. apply not_contains. reflexivity.
  - apply (proj2 extract_code_first_block); apply not_contains; reflexivity.
Defined.

(** Of the two blocks of the sample reply, the first is extracted. *)
Example extract_code_two_blocks :
  extract_code Sample.two_blocks = Some "class MainScene(Scene): pass".
Proof. reflexivity. Qed.

(** An opening tag that is never closed is no block. *)
Example extract_code_unclosed :
  extract_code ("```python" +:+ Text.LF +:+ "class MainScene(Scene): pass") = None.
Proof. reflexivity. Qed.

(** ** Scoring *)

Lemma get_eq_str_iff answers q :
  get_eq_str (answers !! pretty (Question.id q)) (Question.answer q) = true
  <-> answered_correctly answers q.
Proof.
  unfold answered_correctly.
  destruct (answers !! pretty (Question.id q)) as [[| | | |s| |]|]; cbn;
    try (split; [discriminate | intros [=]]).
  rewrite String.eqb_eq. split; [intros -> | intros [=]]; congruence.
Qed.

(** The loop counts the questions answered correctly, starting from any
    value of the counter. *)
Lemma scoring_loop answers qs n :
  fold_left
    (fun correct_count question =>
       if get_eq_str (answers !! pretty (Question.id question)) (Question.answer question)
       then S correct_count else correct_count)
    qs n
  = (n + length (filter (answered_correctly answers) qs))%nat.
Proof.
  revert n. induction qs as [|q qs IH]; intros n; cbn [fold_left].
  - cbn. lia.
  - rewrite IH, filter_cons.
    destruct (get_eq_str _ _) eqn:E.
    + apply get_eq_str_iff in E. rewrite decide_True by exact E. cbn. lia.
    + rewrite decide_False; [reflexivity|].
      intros H%get_eq_str_iff. congruence.
Qed.

Lemma count_correct_filter answers qs :
  count_correct answers qs = length (filter (answered_correctly answers) qs).
Proof. unfold count_correct. rewrite scoring_loop. reflexivity. Qed.

(** C6.  A quiz of four questions, exactly three of which are answered with
    their exact answer string, scores 3 of 4, 75.0 percent, passed; a quiz
    without questions scores 0 of 0, percentage 0, not passed. *)
Theorem submit_quiz_score_three_of_four :
  (forall quiz answers,
     length (Quiz.questions quiz) = 4%nat ->
     length (filter (answered_correctly answers) (Quiz.questions quiz)) = 3%nat ->
     submit_quiz_score quiz answers = ScoreResult.Make 3 4 (PyFloat 75) true)
  /\ (forall quiz answers,
        Quiz.questions quiz = [] ->
        submit_quiz_score quiz answers = ScoreResult.Make 0 0 (PyInt 0) false).
Proof.
  split; intros quiz answers.
  - intros Htotal Hcorrect. unfold submit_quiz_score.
    rewrite count_correct_filter, Hcorrect, Htotal. reflexivity.
  - intros Hnil. unfold submit_quiz_score. rewrite Hnil. reflexivity.
Qed.

Lemma submit_quiz_score_three_of_four_witness :
  submit_quiz_score Sample.quiz4 Sample.answers3 = ScoreResult.Make 3 4 (PyFloat 75) true
  /\ submit_quiz_score (Quiz.Make "quiz_00c0ffe1" "vid_00c0ffe0" []) Sample.answers3
     = ScoreResult.Make 0 0 (PyInt 0) false.
Proof.
  split.
  - apply (proj1 submit_quiz_score_three_of_four Sample.quiz4 Sample.answers3);
      vm_compute; reflexivity.
  - apply (proj2 submit_quiz_score_three_of_four); reflexivity.
Defined.

(** C7.  Scoring is a total function of the quiz and the answers map: the
    total is the number of questions, and a question is counted exactly when
    the map holds, under the decimal form of its id, a string equal to its
    answer; so the questions without an entry are not counted. *)
Theorem submit_quiz_score_exact_matches (quiz : Quiz.t) (answers : gmap string json) :
  ScoreResult.total (submit_quiz_score quiz answers) = length (Quiz.questions quiz)
  /\ ScoreResult.correct (submit_quiz_score quiz answers)
     = length (filter (answered_correctly answers) (Quiz.questions quiz))
  /\ (ScoreResult.correct (submit_quiz_score quiz answers)
      <= length (filter (fun q => is_Some (answers !! pretty (Question.id q)))
                   (Quiz.questions quiz)))%nat.
Proof.
  unfold submit_quiz_score. cbn [ScoreResult.total ScoreResult.correct].
  rewrite count_correct_filter. repeat split.
  induction (Quiz.questions quiz) as [|q qs IH]; [reflexivity|].
  rewrite !filter_cons.
  destruct (decide (answered_correctly answers q)) as [Hq|Hq].
  - rewrite decide_True by (rewrite Hq; eauto). cbn. lia.
  - destruct (decide (is_Some (answers !! pretty (Question.id q)))); cbn; lia.
Qed.

(** An answer that differs by case only, and a missing answer, score nothing. *)
Example scoring_is_case_sensitive :
  ScoreResult.correct
    (submit_quiz_score
       (Quiz.Make "quiz_1" "vid_1"
          [Question.Make 1 "Capital of France?" ["Paris"; "Rome"; "Oslo"; "Bern"] "Paris";
           Question.Make 2 "Capital of Italy?" ["Paris"; "Rome"; "Oslo"; "Bern"] "Rome"])
       (<["1" := JStr "paris"]> ∅)) = 0%nat.
Proof. vm_compute. reflexivity. Qed.

(** ** Quiz synthesis *)

Lemma fallback_quiz_questions w video_id st :
  quiz_questions (fallback_quiz w video_id st).1 = Some [].
Proof. reflexivity. Qed.

Lemma fallback_quiz_not_populated w video_id st :
  ~ populated (fallback_quiz w video_id st).1.
Proof. intros (q & qs & H). rewrite fallback_quiz_questions in H. discriminate. Qed.

(** The quiz returned for a reply that decodes to a dictionary. *)
Lemma generate_quiz_dict w caption_content video_id st text d :
  chat_completion w quiz_system_prompt (quiz_user_query caption_content) true
  = Content (Some text) ->
  json_loads w text = Some (JDict d) ->
  generate_quiz_with_gemini w caption_content video_id st
  = (JDict (<["video_id" := JStr video_id]>
            (<["quiz_id" := JStr ("quiz_" +:+ uuid4_hex8 w (uuid_calls st))]> d)),
     State (videos st) (quizzes st) (S (uuid_calls st))).
Proof.
  intros Hchat Hloads. unfold generate_quiz_with_gemini. cbv zeta.
  rewrite Hchat, Hloads. reflexivity.
Qed.

(** The unpopulated quiz is what every other reply leads to. *)
Lemma generate_quiz_fallback w caption_content video_id st :
  (forall text d,
     chat_completion w quiz_system_prompt (quiz_user_query caption_content) true
     = Content (Some text) ->
     json_loads w text <> Some (JDict d)) ->
  exists st1,
    generate_quiz_with_gemini w caption_content video_id st = fallback_quiz w video_id st1.
Proof.
  intros H. unfold generate_quiz_with_gemini. cbv zeta.
  destruct (chat_completion _ _ _ _) as [|[text|]]; try (exists st; reflexivity).
  specialize (H text).
  destruct (json_loads w text) as [[| | | | | |d]|];
    try (exists st; reflexivity); try (eexists; reflexivity).
  exfalso. exact (H d eq_refl eq_refl).
Qed.

Lemma quiz_questions_attach (d : gmap string json) quiz_id video_id :
  quiz_questions (JDict (<["video_id" := JStr video_id]> (<["quiz_id" := JStr quiz_id]> d)))
  = quiz_questions (JDict d).
Proof.
  unfold quiz_questions. rewrite !lookup_insert_ne by discriminate. reflexivity.
Qed.

(** C1, as the code has it.  When the reply decodes to a JSON object, the
    synthesizer returns that object with the fresh quiz id and the video id
    attached and its question sequence unchanged, whatever its length: a
    reply with three questions gives a quiz with these three questions.
    The unpopulated quiz is returned when the reply does not decode to an
    object: the call raises, the content is missing or is not JSON, or the
    decoded value is no dictionary. *)
Theorem generate_quiz_keeps_reply (w : world) (caption_content video_id : string) (st : state) :
  (forall text d qs,
     chat_completion w quiz_system_prompt (quiz_user_query caption_content) true
     = Content (Some text) ->
     json_loads w text = Some (JDict d) ->
     d !! "questions" = Some (JList qs) ->
     (generate_quiz_with_gemini w caption_content video_id st).1
     = JDict (<["video_id" := JStr video_id]>
              (<["quiz_id" := JStr ("quiz_" +:+ uuid4_hex8 w (uuid_calls st))]> d))
     /\ quiz_questions (generate_quiz_with_gemini w caption_content video_id st).1 = Some qs)
  /\ ((forall text d,
         chat_completion w quiz_system_prompt (quiz_user_query caption_content) true
         = Content (Some text) ->
         json_loads w text <> Some (JDict d)) ->
      exists st1,
        generate_quiz_with_gemini w caption_content video_id st
        = fallback_quiz w video_id st1).
Proof.
  split.
  - intros text d qs Hchat Hloads Hqs.
    rewrite (generate_quiz_dict _ _ _ _ _ _ Hchat Hloads). cbn [fst].
    split; [reflexivity|].
    rewrite quiz_questions_attach. unfold quiz_questions. rewrite Hqs. reflexivity.
  - apply generate_quiz_fallback.
Qed.

Lemma generate_quiz_keeps_reply_witness :
  ((generate_quiz_with_gemini Sample.short_quiz "A transcript." "vid_00c0ffe0" Sample.st0).1
   = JDict (<["video_id" := JStr "vid_00c0ffe0"]>
            (<["quiz_id" := JStr ("quiz_" +:+ uuid4_hex8 Sample.short_quiz (uuid_calls Sample.st0))]>
               Sample.three_questions))
   /\ quiz_questions
        (generate_quiz_with_gemini Sample.short_quiz "A transcript." "vid_00c0ffe0" Sample.st0).1
      = Some [Sample.q1; Sample.q2; Sample.q3])
  /\ exists st1,
       generate_quiz_with_gemini Sample.no_manim "A transcript." "vid_00c0ffe0" Sample.st0
       = fallback_quiz Sample.no_manim "vid_00c0ffe0" st1.
Proof.
  split.
  - apply (proj1 (generate_quiz_keeps_reply Sample.short_quiz "A transcript." "vid_00c0ffe0"
                    Sample.st0) "quiz" Sample.three_questions); reflexivity.
  - apply (proj2 (generate_quiz_keeps_reply Sample.no_manim "A transcript." "vid_00c0ffe0"
                    Sample.st0)).
    intros text d H. discriminate H.
Defined.

(** C1 as stated fails: the reply decodes to an object with three
    questions, and the quiz returned holds these three questions, where the
    unpopulated quiz holds none. *)
Lemma three_questions_are_returned :
  chat_completion Sample.short_quiz quiz_system_prompt (quiz_user_query "A transcript.") true
  = Content (Some "quiz")
  /\ json_loads Sample.short_quiz "quiz" = Some (JDict Sample.three_questions)
  /\ quiz_questions (JDict Sample.three_questions) = Some [Sample.q1; Sample.q2; Sample.q3]
  /\ quiz_questions
       (generate_quiz_with_gemini Sample.short_quiz "A transcript." "vid_00c0ffe0" Sample.st0).1
     = Some [Sample.q1; Sample.q2; Sample.q3]
  /\ quiz_questions (fallback_quiz Sample.short_quiz "vid_00c0ffe0" Sample.st0).1 = Some [].
Proof. repeat split. Qed.

(** C2, as the code has it.  A populated quiz returned by the synthesizer
    comes from a reply that decoded to a JSON object, and its questions are
    the question sequence of that object, unchanged and unchecked. *)
Theorem populated_quiz_is_the_reply w caption_content video_id st :
  populated (generate_quiz_with_gemini w caption_content video_id st).1 ->
  exists text d,
    chat_completion w quiz_system_prompt (quiz_user_query caption_content) true
    = Content (Some text)
    /\ json_loads w text = Some (JDict d)
    /\ quiz_questions (generate_quiz_with_gemini w caption_content video_id st).1
       = quiz_questions (JDict d).
Proof.
  intros Hpop.
  destruct (chat_completion w quiz_system_prompt (quiz_user_query caption_content) true)
    as [|[text|]] eqn:Hchat.
  - exfalso. revert Hpop. unfold generate_quiz_with_gemini. cbv zeta. rewrite Hchat.
    apply fallback_quiz_not_populated.
  - destruct (json_loads w text) as [[| | | | | |d]|] eqn:Hloads;
      try (exfalso; revert Hpop; unfold generate_quiz_with_gemini; cbv zeta;
           rewrite Hchat, Hloads; apply fallback_quiz_not_populated).
    exists text, d. repeat split; [exact Hloads|].
    rewrite (generate_quiz_dict _ _ _ _ _ _ Hchat Hloads). apply quiz_questions_attach.
  - exfalso. revert Hpop. unfold generate_quiz_with_gemini. cbv zeta. rewrite Hchat.
    apply fallback_quiz_not_populated.
Qed.

Lemma populated_quiz_is_the_reply_witness :
  exists text d,
    chat_completion Sample.careless quiz_system_prompt (quiz_user_query "A transcript.") true
    = Content (Some text)
    /\ json_loads Sample.careless text = Some (JDict d)
    /\ quiz_questions
         (generate_quiz_with_gemini Sample.careless "A transcript." "vid_00c0ffe0" Sample.st0).1
       = quiz_questions (JDict d).
Proof.
  apply (populated_quiz_is_the_reply Sample.careless "A transcript." "vid_00c0ffe0" Sample.st0).
  exists Sample.q1, [Sample.q2; Sample.q3; Sample.q4_bad]. reflexivity.
Defined.

Lemma q4_bad_options :
  Sample.q4_bad
  = JDict (<["id" := JInt 4]>
           (<["text" := JStr "Who named it?"]>
            (<["options" := JList [JStr "Wheeler"; JStr "Wheeler"]]>
             (<["answer" := JStr "Hawking"]> ∅)))).
Proof. reflexivity. Qed.

(** C2 as stated fails: a populated quiz of four questions is returned whose
    fourth question has two options, equal to each other, and an answer that
    is not among them. *)
Lemma careless_quiz_is_returned :
  quiz_questions
    (generate_quiz_with_gemini Sample.careless "A transcript." "vid_00c0ffe0" Sample.st0).1
  = Some [Sample.q1; Sample.q2; Sample.q3; Sample.q4_bad]
  /\ populated
       (generate_quiz_with_gemini Sample.careless "A transcript." "vid_00c0ffe0" Sample.st0).1
  /\ ~ question_invariant Sample.q4_bad.
Proof.
  split; [reflexivity|]. split.
  - exists Sample.q1, [Sample.q2; Sample.q3; Sample.q4_bad]. reflexivity.
  - intros (d & options & answer & Hq & Hoptions & _ & _ & Hlen & _).
    rewrite q4_bad_options in Hq. injection Hq as <-.
    rewrite lookup_insert_ne, lookup_insert_ne, lookup_insert_eq in Hoptions by discriminate.
    injection Hoptions as Hoptions.
    apply (f_equal length) in Hoptions. rewrite length_fmap, Hlen in Hoptions.
    discriminate.
Qed.

(** ** Summaries *)

(** C9, as the code has it.  The summarizer is a total function of the
    reply: a non-empty reply text is returned verbatim; an empty or missing
    reply text gives the fixed string [Could not generate summary.]; a call
    that raises gives the fixed apology. *)
Theorem summarize_transcript_cases (w : world) (caption_content : string) :
  (forall text,
     chat_completion w summary_system_prompt (summary_user_query caption_content) false
     = Content (Some text) ->
     text <> "" ->
     summarize_transcript_with_gemini w caption_content = text)
  /\ (chat_completion w summary_system_prompt (summary_user_query caption_content) false
      = Content (Some "")
      \/ chat_completion w summary_system_prompt (summary_user_query caption_content) false
         = Content None ->
      summarize_transcript_with_gemini w caption_content = "Could not generate summary.")
  /\ (chat_completion w summary_system_prompt (summary_user_query caption_content) false
      = Raises ->
      summarize_transcript_with_gemini w caption_content
      = "Sorry, there was an error generating the summary.").
Proof.
  unfold summarize_transcript_with_gemini. cbv zeta. repeat split.
  - intros text -> Hne. apply nonempty_true in Hne. rewrite Hne. reflexivity.
  - intros [-> | ->]; reflexivity.
  - intros ->. reflexivity.
Qed.

Lemma summarize_transcript_cases_witness :
  summarize_transcript_with_gemini Sample.studio "A transcript." = "- gravity bends light"
  /\ summarize_transcript_with_gemini Sample.short_quiz "A transcript."
     = "Could not generate summary."
  /\ summarize_transcript_with_gemini Sample.no_manim "A transcript."
     = "Sorry, there was an error generating the summary.".
Proof.
  destruct (summarize_transcript_cases Sample.studio "A transcript.") as (H1 & _ & _).
  destruct (summarize_transcript_cases Sample.short_quiz "A transcript.") as (_ & H2 & _).
  destruct (summarize_transcript_cases Sample.no_manim "A transcript.") as (_ & _ & H3).
  split; [apply H1; [reflexivity | discriminate] |].
  split; [apply H2; right; reflexivity | apply H3; reflexivity].
Defined.

(** C9 as stated fails on a call that succeeds with an empty text: what is
    returned is not that text, and it is not the string returned when the
    call raises either. *)
Lemma empty_summary_is_replaced :
  chat_completion Sample.careless summary_system_prompt (summary_user_query "A transcript.") false
  = Content (Some "")
  /\ summarize_transcript_with_gemini Sample.careless "A transcript."
     = "Could not generate summary."
  /\ summarize_transcript_with_gemini Sample.no_manim "A transcript."
     = "Sorry, there was an error generating the summary.".
Proof. repeat split. Qed.

(** * Further properties of the code *)

(** ** The extractor: when it succeeds and what it returns *)

Lemma lazy_until_contains close s :
  contains close s -> exists g, Re.lazy_until close s = Some g.
Proof.
  intros (pre & post & ->). induction pre as [|c pre [g IH]]; rewrite lazy_until_unfold.
  - replace (String.prefix close ("" +:+ close +:+ post)) with true; [eauto|].
    symmetry. apply prefix_iff. exists post. reflexivity.
  - destruct (String.prefix close _); [eauto|].
    rewrite app_cons, IH. cbn. eauto.
Qed.

Lemma search_block s : has_python_block s -> exists g, Re.search s = Some g.
Proof.
  intros (pre & body & post & ->). induction pre as [|c pre [g IH]]; rewrite search_unfold.
  - unfold Re.match_here.
    replace (String.prefix Re.python_fence _) with true
      by (symmetry; apply prefix_iff; eexists; reflexivity).
    change ("" +:+ Re.python_fence +:+ body +:+ Re.fence +:+ post)
      with (Re.python_fence +:+ body +:+ Re.fence +:+ post).
    rewrite drop_app_length.
    destruct (lazy_until_contains Re.fence (body +:+ Re.fence +:+ post)) as [g ->];
      [exists body, post; reflexivity | eauto].
  - destruct (Re.match_here _); [eauto|]. rewrite app_cons, IH. eauto.
Qed.

(** X1.  The extractor finds no code exactly in the texts that hold no
    opening tag followed, later on, by a closing fence: a block that is never
    closed is no block, and every closed block is found. *)
Theorem extract_code_None_iff (text : string) :
  extract_code text = None <-> ~ has_python_block text.
Proof.
  unfold extract_code. split.
  - intros H Hblock. destruct (search_block text Hblock) as [g Hg].
    rewrite Hg in H. discriminate.
  - intros Hno. destruct (Re.search text) as [g|] eqn:E; [|reflexivity].
    exfalso. apply Hno. destruct (search_Some _ _ E) as (pre & post & ->).
    exists pre, g, post. reflexivity.
Qed.

Lemma contains_trans a b c : contains a b -> contains b c -> contains a c.
Proof.
  intros (p1 & q1 & ->) (p2 & q2 & ->).
  exists (p2 +:+ p1), (q1 +:+ q2). rewrite !app_assoc'. reflexivity.
Qed.

Lemma lstrip_suffix s : exists pre, s = pre +:+ Text.lstrip s.
Proof.
  induction s as [|c s [pre IH]]; [exists ""; reflexivity|]. cbn.
  destruct (Text.isspace c).
  - exists (String c pre). rewrite app_cons, <- IH. reflexivity.
  - exists "". reflexivity.
Qed.

Lemma rstrip_prefix s : exists post, s = Text.rstrip s +:+ post.
Proof.
  induction s as [|c s [post IH]]; [exists ""; reflexivity|]. cbn.
  destruct (Text.isspace c && negb (Text.nonempty (Text.rstrip s))).
  - exists (String c s). reflexivity.
  - exists post. rewrite app_cons, <- IH. reflexivity.
Qed.

Lemma strip_contained s : contains (Text.strip s) s.
Proof.
  unfold Text.strip. destruct (lstrip_suffix s) as [pre Hpre].
  destruct (rstrip_prefix (Text.lstrip s)) as [post Hpost].
  exists pre, post. rewrite <- Hpost. exact Hpre.
Qed.

Lemma lstrip_head s c r : Text.lstrip s = String c r -> Text.isspace c = false.
Proof.
  induction s as [|d s IH]; [discriminate|]. cbn.
  destruct (Text.isspace d) eqn:E; [exact IH|]. intros [= <- _]. exact E.
Qed.

Lemma rstrip_head s c r :
  Text.rstrip s = String c r -> exists r', s = String c r'.
Proof.
  destruct s as [|d s]; [discriminate|]. cbn.
  destruct (Text.isspace d && negb (Text.nonempty (Text.rstrip s))); [discriminate|].
  intros [= <- _]. eauto.
Qed.

Lemma rstrip_last s front c :
  Text.rstrip s = front +:+ String c "" -> Text.isspace c = false.
Proof.
  revert front. induction s as [|d s IH]; intros front.
  - destruct front; discriminate.
  - cbn. destruct (Text.isspace d && negb (Text.nonempty (Text.rstrip s))) eqn:E;
      [destruct front; discriminate|].
    destruct front as [|e front].
    + intros [= -> Hr]. rewrite Hr in E. cbn in E.
      rewrite andb_true_r in E. exact E.
    + rewrite app_cons. intros [= _ Hr]. exact (IH _ Hr).
Qed.

Lemma not_contains_empty close : close <> "" -> ~ contains close "".
Proof.
  intros Hclose (pre & post & H).
  destruct pre; [destruct close; [congruence|]|]; cbv [String.append] in H; discriminate.
Qed.

(** A lazy match holds no closing fence. *)
Lemma lazy_until_minimal close s g :
  close <> "" -> Re.lazy_until close s = Some g -> ~ contains close g.
Proof.
  intros Hclose. revert g. induction s as [|c s IH]; intros g; rewrite lazy_until_unfold.
  - destruct (String.prefix close ""); [|discriminate].
    intros [= <-]. exact (not_contains_empty close Hclose).
  - destruct (String.prefix close (String c s)) eqn:E.
    + intros [= <-]. exact (not_contains_empty close Hclose).
    + destruct (Re.lazy_until close s) as [g'|] eqn:Hl; [|discriminate].
      intros [= <-] (pre & post & H). destruct pre as [|d pre].
      * apply lazy_until_Some in Hl as [post' Hs].
        assert (Hp : String.prefix close (String c s) = true); [|congruence].
        apply prefix_iff. exists (post +:+ close +:+ post').
        rewrite Hs, <- app_cons, H.
        change ("" +:+ close +:+ post) with (close +:+ post).
        rewrite !app_assoc'. reflexivity.
      * rewrite app_cons in H. injection H as _ H.
        apply (IH g' eq_refl). exists pre, post. exact H.
Qed.

Lemma fence_nonempty : Re.fence <> "".
Proof. unfold Re.fence. discriminate. Qed.

(** X2.  The code handed to the renderer is a piece of the model's text, it
    holds no closing fence, and it neither starts nor ends with a whitespace
    character. *)
Theorem extract_code_clean text code :
  extract_code text = Some code ->
  contains code text
  /\ ~ contains Re.fence code
  /\ (forall c rest, code = String c rest -> Text.isspace c = false)
  /\ (forall front c, code = front +:+ String c "" -> Text.isspace c = false).
Proof.
  unfold extract_code. destruct (Re.search text) as [g|] eqn:E; [|discriminate].
  intros [= <-].
  assert (Hg : contains g text).
  { destruct (search_Some _ _ E) as (pre & post & ->).
    exists (pre +:+ Re.python_fence), (Re.fence +:+ post).
    rewrite !app_assoc'. reflexivity. }
  assert (Hfree : ~ contains Re.fence g).
  { clear Hg. induction text as [|c text IH]; rewrite search_unfold in E;
      unfold Re.match_here in E.
    - destruct (String.prefix Re.python_fence ""); [|discriminate].
      destruct (Re.lazy_until _ _) eqn:Hl; [|discriminate].
      injection E as ->. exact (lazy_until_minimal _ _ _ fence_nonempty Hl).
    - destruct (String.prefix Re.python_fence (String c text)).
      + destruct (Re.lazy_until _ _) eqn:Hl; [|exact (IH E)].
        injection E as ->. exact (lazy_until_minimal _ _ _ fence_nonempty Hl).
      + exact (IH E). }
  repeat split.
  - exact (contains_trans _ _ _ (strip_contained g) Hg).
  - intros H. exact (Hfree (contains_trans _ _ _ H (strip_contained g))).
  - intros c rest H. unfold Text.strip in H.
    destruct (rstrip_head _ _ _ H) as [r' Hr]. exact (lstrip_head _ _ _ Hr).
  - intros front c H. exact (rstrip_last _ _ _ H).
Qed.

Lemma extract_code_clean_witness :
  contains "class MainScene(Scene): pass" Sample.two_blocks
  /\ ~ contains Re.fence "class MainScene(Scene): pass"
  /\ (forall c rest, "class MainScene(Scene): pass" = String c rest -> Text.isspace c = false)
  /\ (forall front c,
        "class MainScene(Scene): pass" = front +:+ String c "" -> Text.isspace c = false).
Proof.
  apply (extract_code_clean Sample.two_blocks "class MainScene(Scene): pass"). reflexivity.
Defined.

(** ** The renderer: where a path can come from *)

(** The runs that reach the scan of the folder. *)
Lemma generate_manim_animation_Some_inv w prompt st path :
  (generate_manim_animation w prompt st).1 = Some path ->
  exists code python_code stderr,
    synthesized w prompt code
    /\ extract_code code = Some python_code
    /\ write_file w (source_file w (uuid_calls st)) python_code = true
    /\ run_manim w (source_file w (uuid_calls st)) python_code = CompletedProcess 0 stderr
    /\ find_video w = Some path.
Proof.
  unfold generate_manim_animation, source_file, synthesized.
  destruct (read_system_prompt w) as [system_prompt|]; [|discriminate].
  destruct (chat_completion w system_prompt prompt false) as [|[code|]] eqn:Hchat;
    try discriminate.
  destruct (extract_code code) as [python_code|] eqn:Hcode; [|discriminate].
  cbn [uuid4].
  destruct (write_file _ _ _) eqn:Hwrite; [|discriminate].
  destruct (run_manim _ _ _) as [| | |returncode stderr] eqn:Hrun; try discriminate.
  destruct (Z.eqb_spec returncode 0) as [->|]; [|discriminate].
  cbn [fst]. intros Hfind. exists code, python_code, stderr. eauto 10.
Qed.

(** X3.  A path returned by [generate_manim_animation] always names, under
    the video folder, a listed file that starts with [MainScene] and ends
    with [.mp4], and it is returned only after code was extracted, written
    and rendered with exit code zero. *)
Theorem generate_manim_animation_path w prompt st path :
  (generate_manim_animation w prompt st).1 = Some path ->
  (exists f, path = "media/videos/" +:+ f /\ listed w f /\ is_match f)
  /\ exists code python_code stderr,
       synthesized w prompt code
       /\ extract_code code = Some python_code
       /\ write_file w (source_file w (uuid_calls st)) python_code = true
       /\ run_manim w (source_file w (uuid_calls st)) python_code = CompletedProcess 0 stderr.
Proof.
  intros H.
  destruct (generate_manim_animation_Some_inv _ _ _ _ H)
    as (code & python_code & stderr & Hs & Hcode & Hwrite & Hrun & Hfind).
  destruct (find_video_Some_inv _ _ Hfind)
    as (names & l1 & f & l2 & t & _ & _ & Hpath & Hin & Hm & _).
  split; [exists f; auto | exists code, python_code, stderr; auto].
Qed.

Lemma generate_manim_animation_path_witness :
  (exists f, "media/videos/MainScene_v2.mp4" = "media/videos/" +:+ f
             /\ listed Sample.studio f /\ is_match f)
  /\ exists code python_code stderr,
       synthesized Sample.studio "black holes" code
       /\ extract_code code = Some python_code
       /\ write_file Sample.studio (source_file Sample.studio (uuid_calls Sample.st0))
            python_code = true
       /\ run_manim Sample.studio (source_file Sample.studio (uuid_calls Sample.st0))
            python_code = CompletedProcess 0 stderr.
Proof.
  apply (generate_manim_animation_path Sample.studio "black holes" Sample.st0). reflexivity.
Defined.

(** X4.  Among the matching files, the one returned is the first of the
    listing whose modification time is the largest: those listed before it
    are strictly older, those listed after it are not newer. *)
Theorem generate_manim_animation_tie_break w prompt st path :
  (generate_manim_animation w prompt st).1 = Some path ->
  exists names l1 f l2 t,
    listdir w = Some names
    /\ filter (fun f => Is_true (is_video_file f)) names = (l1 ++ f :: l2)%list
    /\ path = "media/videos/" +:+ f
    /\ modified w f t
    /\ (forall g, g ∈ l1 -> exists u, modified w g u /\ (u < t)%Z)
    /\ (forall g, g ∈ l2 -> exists u, modified w g u /\ (u <= t)%Z).
Proof.
  intros H.
  destruct (generate_manim_animation_Some_inv _ _ _ _ H)
    as (code & python_code & stderr & _ & _ & _ & _ & Hfind).
  destruct (find_video_Some_inv _ _ Hfind)
    as (names & l1 & f & l2 & t & Hnames & Hl & Hpath & _ & _ & Ht & H1 & H2).
  exists names, l1, f, l2, t. auto 10.
Qed.

Lemma generate_manim_animation_tie_break_witness :
  exists names l1 f l2 t,
    listdir Sample.studio = Some names
    /\ filter (fun f => Is_true (is_video_file f)) names = (l1 ++ f :: l2)%list
    /\ "media/videos/MainScene_v2.mp4" = "media/videos/" +:+ f
    /\ modified Sample.studio f t
    /\ (forall g, g ∈ l1 -> exists u, modified Sample.studio g u /\ (u < t)%Z)
    /\ (forall g, g ∈ l2 -> exists u, modified Sample.studio g u /\ (u <= t)%Z).
Proof.
  apply (generate_manim_animation_tie_break Sample.studio "black holes" Sample.st0).
  reflexivity.
Defined.

(** Two files of the same age: the one listed first is taken. *)
Example tie_break_sample :
  find_video
    (World None (fun _ _ _ => Raises) (fun _ => None) (fun _ _ => true)
       (fun _ _ => TimeoutExpired) (Some ["MainScene_b.mp4"; "MainScene_a.mp4"])
       (fun _ => Some 7%Z) (fun _ => "") "")
  = Some "media/videos/MainScene_b.mp4".
Proof. reflexivity. Qed.

(** A scan without result: no matching file is listed, or the time of a
    listed matching file cannot be read. *)
Lemma find_video_None_inv w :
  find_video w = None ->
  (forall f, listed w f -> ~ is_match f)
  \/ exists f, listed w f /\ is_match f /\ getmtime w ("media/videos/" +:+ f) = None.
Proof.
  unfold find_video, listed.
  destruct (listdir w) as [names|] eqn:Hnames.
  2: { intros _. left. intros f (names & [=] & _). }
  pose proof (elem_of_video_files names) as Hmem.
  destruct (filter _ names) as [|x0 l] eqn:E.
  { intros _. left. intros f (names' & [= <-] & Hin) Hm.
    assert (H : f ∈ @nil string) by (apply Hmem; auto). inversion H. }
  destruct (sort_keys _ (x0 :: l)) as [keyed|] eqn:Hkeyed.
  - pose proof (sort_keys_Some _ _ _ Hkeyed) as [Hsnd _].
    destruct keyed as [|p0 keyed]; [discriminate|].
    destruct (sort_reverse_head fst p0 keyed) as (? & [? ?] & ? & ? & _ & Hs & _).
    rewrite Hs. discriminate.
  - intros _. right. apply sort_keys_None in Hkeyed as (g & Hg & Hnone).
    apply Hmem in Hg as [Hgm Hg]. exists g.
    split; [exists names; auto|]. split; [exact Hgm|].
    rewrite (video_path _ Hgm) in Hnone. exact Hnone.
Qed.

(** The failures of [pipeline_failure] are all the ways to get [None]. *)
Lemma generate_manim_animation_None_inv w prompt st :
  (generate_manim_animation w prompt st).1 = None ->
  pipeline_failure w prompt (uuid_calls st).
Proof.
  destruct (read_system_prompt w) as [system_prompt|] eqn:Hread.
  2: { intros _. apply model_error. intros code (sp & Hsp & _). congruence. }
  destruct (chat_completion w system_prompt prompt false) as [|[code|]] eqn:Hchat.
  1, 3: intros _; apply model_error; intros code' (sp & Hsp & Hc); congruence.
  assert (Hs : synthesized w prompt code) by (exists system_prompt; auto).
  destruct (extract_code code) as [python_code|] eqn:Hcode.
  2: { intros _. exact (no_code_block _ _ _ code Hs Hcode). }
  rewrite (generate_manim_animation_rendered _ _ _ _ _ Hs Hcode).
  destruct (write_file _ _ _) eqn:Hwrite.
  2: { intros _. exact (source_not_written _ _ _ code python_code Hs Hcode Hwrite). }
  destruct (run_manim _ _ _) as [| | |returncode stderr] eqn:Hrun.
  - intros _. exact (render_timeout _ _ _ code python_code Hs Hcode Hrun).
  - intros _. exact (tool_missing _ _ _ code python_code Hs Hcode Hrun).
  - intros _. exact (render_raises _ _ _ code python_code Hs Hcode Hrun).
  - destruct (Z.eqb_spec returncode 0) as [->|Hne].
    + intros Hfind. destruct (find_video_None_inv w Hfind) as [Hnone|(f & Hf & Hm & Hnone)].
      * exact (artifact_not_produced _ _ _ code python_code stderr Hs Hcode Hrun Hnone).
      * exact (artifact_not_read _ _ _ code python_code stderr f Hs Hcode Hrun Hf Hm Hnone).
    + intros _. exact (render_failed _ _ _ code python_code returncode stderr Hs Hcode Hrun Hne).
Qed.

(** ** The generation handler: what it stores *)

Lemma truthy_inv x s : truthy x = Some s -> x = Some s /\ s <> "".
Proof.
  destruct x as [[|c r]|]; cbn; try discriminate.
  intros [= <-]. split; [reflexivity | discriminate].
Qed.

(** The store is only read by the pipeline and by the quiz synthesizer;
    both draw identifiers. *)
Lemma generate_manim_animation_store w prompt st :
  videos (generate_manim_animation w prompt st).2 = videos st
  /\ quizzes (generate_manim_animation w prompt st).2 = quizzes st
  /\ (uuid_calls st <= uuid_calls (generate_manim_animation w prompt st).2
      <= S (uuid_calls st))%nat.
Proof.
  unfold generate_manim_animation.
  destruct (read_system_prompt w); [|cbn; auto with lia].
  destruct (chat_completion _ _ _ _) as [|[code|]]; try (cbn; auto with lia).
  destruct (extract_code code); [|cbn; auto with lia].
  cbn [uuid4]. destruct (write_file _ _ _); [|cbn; auto with lia].
  destruct (run_manim _ _ _) as [| | |returncode stderr]; try (cbn; auto with lia).
  destruct (returncode =? 0)%Z; cbn; auto with lia.
Qed.

Lemma generate_quiz_store w caption_content video_id st :
  videos (generate_quiz_with_gemini w caption_content video_id st).2 = videos st
  /\ quizzes (generate_quiz_with_gemini w caption_content video_id st).2 = quizzes st
  /\ (uuid_calls st < uuid_calls (generate_quiz_with_gemini w caption_content video_id st).2
      <= 2 + uuid_calls st)%nat.
Proof.
  unfold generate_quiz_with_gemini. cbv zeta.
  destruct (chat_completion _ _ _ _) as [|[text|]]; try (cbn; auto with lia).
  destruct (json_loads w text) as [[| | | | | |d]|]; cbn; auto with lia.
Qed.

(** How a record answered by the handler was made. *)
Lemma generate_video_inv w data st video quiz code st' :
  generate_video w data st = (Response (GeneratedBody video quiz) code, st') ->
  exists prompt user_id,
    Request.prompt data = Some prompt /\ prompt <> ""
    /\ Request.user_id data = Some user_id /\ user_id <> ""
    /\ code = 200%Z
    /\ video
       = Video.Make ("vid_" +:+ uuid4_hex8 w (uuid_calls st)) user_id
           (if (30 <? String.length prompt)%nat then Text.take 30 prompt +:+ "..." else prompt)
           ("https://placehold.co/600x400/1a202c/ffffff?text="
            +:+ Text.replace " " "+"
                  (if (30 <? String.length prompt)%nat
                   then Text.take 30 prompt +:+ "..." else prompt))
           (match truthy (generate_manim_animation w prompt (generate_video_id w st).2).1 with
            | Some path => path
            | None => "mock_video.mp4"
            end)
           (caption_of prompt)
           (filter (fun tag => (3 < String.length tag)%nat) (Text.split (Text.lower prompt)))
           (now_isoformat w)
    /\ generate_quiz_with_gemini w (caption_of prompt) (Video.video_id video)
         (videos_append video (generate_manim_animation w prompt (generate_video_id w st).2).2)
       = (quiz, State (videos st') (quizzes st) (uuid_calls st'))
    /\ videos st' = (videos st ++ [video])%list
    /\ quizzes st' = <[Video.video_id video := quiz]> (quizzes st)
    /\ (uuid_calls st + 2 <= uuid_calls st' <= uuid_calls st + 4)%nat.
Proof.
  unfold generate_video.
  destruct (truthy (Request.prompt data)) as [prompt|] eqn:Hp; [|discriminate].
  destruct (truthy (Request.user_id data)) as [user_id|] eqn:Hu; [|discriminate].
  apply truthy_inv in Hp as [Hp Hpne]. apply truthy_inv in Hu as [Hu Hune].
  change (generate_video_id w st)
    with ("vid_" +:+ uuid4_hex8 w (uuid_calls st),
          State (videos st) (quizzes st) (S (uuid_calls st))).
  cbv iota beta. cbn [fst snd].
  pose proof (generate_manim_animation_store w prompt
                (State (videos st) (quizzes st) (S (uuid_calls st)))) as (Hv2 & Hq2 & Hn2).
  destruct (generate_manim_animation w prompt _) as [path st2] eqn:Hgma. cbn [fst snd] in *.
  cbn [videos quizzes uuid_calls] in Hv2, Hq2, Hn2.
  fold (caption_of prompt).
  remember ("vid_" +:+ uuid4_hex8 w (uuid_calls st)) as vid eqn:Hvid.
  match goal with
  | |- context [videos_append ?V st2] => remember V as new_video eqn:HV
  end.
  assert (Hid : Video.video_id new_video = vid) by (rewrite HV; reflexivity).
  pose proof (generate_quiz_store w (caption_of prompt) vid (videos_append new_video st2))
    as (Hv4 & Hq4 & Hn4).
  destruct (generate_quiz_with_gemini w (caption_of prompt) vid (videos_append new_video st2))
    as [quiz' st4] eqn:Hquiz.
  cbn [fst snd videos_append videos quizzes uuid_calls] in Hv4, Hq4, Hn4.
  intros H. injection H as <- <- <- <-.
  exists prompt, user_id. rewrite Hid.
  change (generate_video_id w st)
    with ("vid_" +:+ uuid4_hex8 w (uuid_calls st),
          State (videos st) (quizzes st) (S (uuid_calls st))).
  cbn [fst snd]. rewrite Hgma.
  cbn [fst snd quizzes_set videos quizzes uuid_calls].
  split; [exact Hp|]. split; [exact Hpne|]. split; [exact Hu|]. split; [exact Hune|].
  split; [reflexivity|]. split; [exact HV|]. split.
  { rewrite Hquiz. f_equal. destruct st4; cbn in *. congruence. }
  split; [rewrite Hv4, Hv2; reflexivity|].
  split; [rewrite Hq4, Hq2; reflexivity | lia].
Qed.

Lemma generate_quiz_video_id w caption_content video_id st :
  exists d,
    (generate_quiz_with_gemini w caption_content video_id st).1 = JDict d
    /\ d !! "video_id" = Some (JStr video_id).
Proof.
  unfold generate_quiz_with_gemini. cbv zeta.
  destruct (chat_completion _ _ _ _) as [|[text|]];
    try (eexists; split; reflexivity).
  destruct (json_loads w text) as [[| | | | | |d0]|];
    try (eexists; split; reflexivity).
  eexists. split; [reflexivity|]. apply lookup_insert_eq.
Qed.

(** X5.  Whatever the model replies, the quiz synthesizer returns a
    dictionary that carries the given video id and a quiz id drawn by one of
    the [uuid4] calls it makes, also when the reply had keys of these names;
    it draws one or two identifiers and leaves the stored videos and quizzes
    as they were. *)
Theorem generate_quiz_carries_ids (w : world) (caption_content video_id : string) (st : state) :
  exists d n,
    (generate_quiz_with_gemini w caption_content video_id st).1 = JDict d
    /\ d !! "video_id" = Some (JStr video_id)
    /\ d !! "quiz_id" = Some (JStr ("quiz_" +:+ uuid4_hex8 w n))
    /\ (uuid_calls st <= n
        < uuid_calls (generate_quiz_with_gemini w caption_content video_id st).2)%nat
    /\ (uuid_calls (generate_quiz_with_gemini w caption_content video_id st).2
        <= 2 + uuid_calls st)%nat
    /\ videos (generate_quiz_with_gemini w caption_content video_id st).2 = videos st
    /\ quizzes (generate_quiz_with_gemini w caption_content video_id st).2 = quizzes st.
Proof.
  assert (Hfb : forall st0 : state,
             exists d,
               (fallback_quiz w video_id st0).1 = JDict d
               /\ d !! "video_id" = Some (JStr video_id)
               /\ d !! "quiz_id" = Some (JStr ("quiz_" +:+ uuid4_hex8 w (uuid_calls st0)))).
  { intros st0. eexists. split; [reflexivity|]. split; reflexivity. }
  unfold generate_quiz_with_gemini. cbv zeta.
  destruct (chat_completion _ _ _ _) as [|[text|]].
  1, 3: destruct (Hfb st) as (d & Hd & Hv & Hq); exists d, (uuid_calls st);
        cbn in *; auto 10 with lia.
  destruct (json_loads w text) as [[| | | | | |d0]|].
  1-6: destruct (Hfb (State (videos st) (quizzes st) (S (uuid_calls st))))
         as (d & Hd & Hv & Hq);
       exists d, (S (uuid_calls st)); cbn in *; auto 10 with lia.
  - eexists _, (uuid_calls st). cbn. split; [reflexivity|].
    rewrite lookup_insert_eq, lookup_insert_ne, lookup_insert_eq by discriminate.
    auto 10 with lia.
  - destruct (Hfb st) as (d & Hd & Hv & Hq). exists d, (uuid_calls st).
    cbn in *. auto 10 with lia.
Qed.

(** X6.  A successful generation appends the answered video, and nothing
    else, to the videos, stores the answered quiz under the id of the video,
    which is [vid_] followed by the identifier drawn first; the video belongs
    to the requesting user and the quiz carries the id of the video. *)
Theorem generate_video_stores w data st video quiz code st' :
  generate_video w data st = (Response (GeneratedBody video quiz) code, st') ->
  videos st' = (videos st ++ [video])%list
  /\ quizzes st' = <[Video.video_id video := quiz]> (quizzes st)
  /\ Video.video_id video = "vid_" +:+ uuid4_hex8 w (uuid_calls st)
  /\ Request.user_id data = Some (Video.user_id video)
  /\ (exists d, quiz = JDict d /\ d !! "video_id" = Some (JStr (Video.video_id video)))
  /\ (uuid_calls st < uuid_calls st')%nat.
Proof.
  intros H. destruct (generate_video_inv _ _ _ _ _ _ _ H)
    as (prompt & user_id & _ & _ & Hu & _ & _ & Hvideo & Hquiz & Hvs & Hqs & Hn).
  split; [exact Hvs|]. split; [exact Hqs|].
  split; [rewrite Hvideo; reflexivity|].
  split; [rewrite Hvideo; exact Hu|]. split; [|lia].
  match type of Hquiz with
  | generate_quiz_with_gemini w ?c ?v ?s = _ =>
      destruct (generate_quiz_video_id w c v s) as (d & Hd & Hv)
  end.
  rewrite Hquiz in Hd. exists d. auto.
Qed.

Lemma generate_video_stores_witness :
  exists video quiz st',
    generate_video Sample.studio (Sample.request "explain how black holes form" "u1") Sample.st0
    = (Response (GeneratedBody video quiz) 200, st')
    /\ videos st' = (videos Sample.st0 ++ [video])%list
    /\ quizzes st' = <[Video.video_id video := quiz]> (quizzes Sample.st0)
    /\ Video.video_id video = "vid_" +:+ uuid4_hex8 Sample.studio (uuid_calls Sample.st0)
    /\ Request.user_id (Sample.request "explain how black holes form" "u1")
       = Some (Video.user_id video)
    /\ (exists d, quiz = JDict d /\ d !! "video_id" = Some (JStr (Video.video_id video)))
    /\ (uuid_calls Sample.st0 < uuid_calls st')%nat.
Proof.
  eexists _, _, _. split; [reflexivity|].
  apply (generate_video_stores Sample.studio
           (Sample.request "explain how black holes form" "u1") Sample.st0 _ _ 200).
  reflexivity.
Defined.

Lemma real_path_not_mock f : "media/videos/" +:+ f <> "mock_video.mp4".
Proof. cbv [String.append]. discriminate. Qed.

(** X7.  The video answered by a successful generation refers to
    [mock_video.mp4] exactly when a stage of the pipeline failed, the scan of
    the folder and the reading of the modification times included; otherwise
    it refers to the rendered file under the video folder. *)
Theorem generate_video_mock_iff w data st video quiz code st' prompt :
  generate_video w data st = (Response (GeneratedBody video quiz) code, st') ->
  Request.prompt data = Some prompt ->
  (Video.video_file_url video = "mock_video.mp4"
   <-> pipeline_failure w prompt (S (uuid_calls st)))
  /\ (Video.video_file_url video <> "mock_video.mp4" ->
      exists f, Video.video_file_url video = "media/videos/" +:+ f
                /\ listed w f /\ is_match f).
Proof.
  intros H Hprompt. destruct (generate_video_inv _ _ _ _ _ _ _ H)
    as (prompt' & user_id & Hp & _ & _ & _ & _ & Hvideo & _).
  assert (prompt' = prompt) as -> by congruence.
  assert (Hurl : Video.video_file_url video
                 = match truthy (generate_manim_animation w prompt (generate_video_id w st).2).1
                   with Some path => path | None => "mock_video.mp4" end)
    by (rewrite Hvideo; reflexivity).
  clear Hvideo.
  change (generate_video_id w st).2
    with (State (videos st) (quizzes st) (S (uuid_calls st))) in Hurl.
  rewrite Hurl.
  destruct (generate_manim_animation w prompt _).1 as [path|] eqn:Hgma.
  - destruct (generate_manim_animation_Some_inv _ _ _ _ Hgma)
      as (c0 & p0 & e0 & _ & _ & _ & _ & Hfind).
    destruct (find_video_Some_inv _ _ Hfind)
      as (names & l1 & f & l2 & t & _ & _ & -> & Hin & Hm & _).
    replace (truthy (Some ("media/videos/" +:+ f))) with (Some ("media/videos/" +:+ f))
      by reflexivity.
    split; [split|].
    + intros E. destruct (real_path_not_mock f E).
    + intros Hfail.
      apply (pipeline_failure_None w prompt
               (State (videos st) (quizzes st) (S (uuid_calls st)))) in Hfail.
      congruence.
    + intros _. exists f. auto.
  - cbn. split; [split; [|reflexivity] | congruence].
    intros _. exact (generate_manim_animation_None_inv _ _ _ Hgma).
Qed.

Lemma generate_video_mock_iff_witness :
  exists video,
    (Video.video_file_url video = "mock_video.mp4"
     <-> pipeline_failure Later.dangling "black holes" (S (uuid_calls Sample.st0)))
    /\ (Video.video_file_url video <> "mock_video.mp4" ->
        exists f, Video.video_file_url video = "media/videos/" +:+ f
                  /\ listed Later.dangling f /\ is_match f).
Proof.
  eexists.
  eapply (generate_video_mock_iff Later.dangling (Sample.request "black holes" "u1") Sample.st0
            _ _ 200 _ "black holes");
    reflexivity.
Defined.

(** ** The generation handler: the shape of the thumbnail link and of the tags *)

Lemma all_chars_app P s t : all_chars P (s +:+ t) = all_chars P s && all_chars P t.
Proof.
  induction s as [|c s IH]; [reflexivity|].
  rewrite app_cons. cbn. rewrite IH, andb_assoc. reflexivity.
Qed.

Lemma replace_space_free s : space_free (Text.replace " " "+" s).
Proof.
  unfold space_free. induction s as [|c s IH]; [reflexivity|]. cbn [Text.replace].
  destruct (Ascii.eqb c " ") eqn:E.
  - rewrite all_chars_app, IH. reflexivity.
  - cbn. rewrite E, IH. reflexivity.
Qed.

Lemma lower_char_idempotent c : Text.lower_char (Text.lower_char c) = Text.lower_char c.
Proof. destruct c as [[] [] [] [] [] [] [] []]; reflexivity. Qed.

Lemma lower_idempotent s : Text.lower (Text.lower s) = Text.lower s.
Proof. induction s as [|c s IH]; cbn; [|rewrite lower_char_idempotent, IH]; reflexivity. Qed.

(** The tokens of a split hold no whitespace. *)
Lemma split_from_whitespace_free word s t :
  whitespace_free word -> t ∈ Text.split_from word s -> whitespace_free t /\ t <> "".
Proof.
  revert word. induction s as [|c s IH]; intros word Hword; cbn [Text.split_from].
  - destruct word as [|d word]; cbn [Text.nonempty].
    + intros Hin. inversion Hin.
    + intros ->%list_elem_of_singleton. split; [exact Hword | discriminate].
  - destruct (Text.isspace c) eqn:E.
    + destruct word as [|d word]; cbn [Text.nonempty].
      * apply IH. reflexivity.
      * intros [->|Hin]%elem_of_cons.
        -- split; [exact Hword | discriminate].
        -- revert Hin. apply IH. reflexivity.
    + apply IH. unfold whitespace_free in *. rewrite all_chars_app, Hword. cbn.
      rewrite E. reflexivity.
Qed.

(** X8.  The thumbnail link of a generated video holds no space character:
    every space of the title is written as a plus sign. *)
Theorem generate_video_thumbnail_space_free w data st video quiz code st' :
  generate_video w data st = (Response (GeneratedBody video quiz) code, st') ->
  space_free (Video.thumbnail_url video)
  /\ Video.thumbnail_url video
     = "https://placehold.co/600x400/1a202c/ffffff?text="
       +:+ Text.replace " " "+" (Video.title video).
Proof.
  intros H. destruct (generate_video_inv _ _ _ _ _ _ _ H)
    as (prompt & user_id & _ & _ & _ & _ & _ & -> & _).
  cbn [Video.thumbnail_url Video.title]. split; [|reflexivity].
  unfold space_free. rewrite all_chars_app.
  rewrite (replace_space_free _). reflexivity.
Qed.

Lemma generate_video_thumbnail_space_free_witness :
  exists video,
    space_free (Video.thumbnail_url video)
    /\ Video.thumbnail_url video
       = "https://placehold.co/600x400/1a202c/ffffff?text="
         +:+ Text.replace " " "+" (Video.title video).
Proof.
  eexists.
  eapply (generate_video_thumbnail_space_free Sample.studio
            (Sample.request "explain how black holes form" "u1") Sample.st0 _ _ 200).
  reflexivity.
Defined.

(** X9.  Every topic tag of a generated video is in lower case, holds no
    whitespace and has more than three characters. *)
Theorem generate_video_tags_clean w data st video quiz code st' tag :
  generate_video w data st = (Response (GeneratedBody video quiz) code, st') ->
  tag ∈ Video.topic_tags video ->
  Text.lower tag = tag /\ whitespace_free tag /\ (3 < String.length tag)%nat.
Proof.
  intros H. destruct (generate_video_inv _ _ _ _ _ _ _ H)
    as (prompt & user_id & _ & _ & _ & _ & _ & -> & _).
  cbn [Video.topic_tags]. intros [Hlen Hin]%list_elem_of_filter.
  split; [|split; [|exact Hlen]].
  - rewrite split_lower in Hin. apply list_elem_of_fmap in Hin as (t & -> & _).
    apply lower_idempotent.
  - exact (proj1 (split_from_whitespace_free "" _ _ eq_refl Hin)).
Qed.

Lemma generate_video_tags_clean_witness :
  Text.lower "holes" = "holes" /\ whitespace_free "holes" /\ (3 < String.length "holes")%nat.
Proof.
  eapply (generate_video_tags_clean Sample.studio
            (Sample.request "explain how Black HOLES form" "u1") Sample.st0 _ _ 200).
  - reflexivity.
  - vm_compute. do 2 right. left.
Defined.

(** ** Looking videos up *)

Lemma find_app_last {A : Type} (f : A -> bool) (l : list A) (x : A) :
  List.find f (l ++ [x])
  = match List.find f l with
    | Some y => Some y
    | None => if f x then Some x else None
    end.
Proof.
  induction l as [|a l IH]; [reflexivity|]. cbn. destruct (f a); [reflexivity | exact IH].
Qed.

Lemma find_none_iff {A : Type} (f : A -> bool) (l : list A) :
  List.find f l = None <-> forall x, x ∈ l -> f x = false.
Proof.
  induction l as [|a l IH]; cbn.
  - split; [intros _ x Hx; inversion Hx | reflexivity].
  - destruct (f a) eqn:E.
    + split; [discriminate|]. intros H. specialize (H a ltac:(left)). congruence.
    + rewrite IH. split.
      * intros H x [->|Hx]%elem_of_cons; auto.
      * intros H x Hx. apply H. right. exact Hx.
Qed.

Lemma video_by_id_fresh video_id st :
  video_by_id video_id st = None
  <-> forall v, v ∈ videos st -> Video.video_id v <> video_id.
Proof.
  unfold video_by_id. rewrite find_none_iff. split; intros H v Hv.
  - apply String.eqb_neq, H, Hv.
  - apply String.eqb_neq, H, Hv.
Qed.

(** X10.  After a successful generation the details of the new id are the
    answered video, provided no stored video had this id already; and every
    id that had a video before still leads to the same video. *)
Theorem get_video_details_after_generate w data st video quiz code st' :
  generate_video w data st = (Response (GeneratedBody video quiz) code, st') ->
  ((forall v, v ∈ videos st -> Video.video_id v <> Video.video_id video) ->
   get_video_details (Video.video_id video) st' = Json video 200)
  /\ (forall video_id v,
        get_video_details video_id st = Json v 200 ->
        get_video_details video_id st' = Json v 200).
Proof.
  intros H. destruct (generate_video_inv _ _ _ _ _ _ _ H)
    as (prompt & user_id & _ & _ & _ & _ & _ & _ & _ & Hvs & _).
  unfold get_video_details, video_by_id. rewrite Hvs. split.
  - intros Hfresh. apply video_by_id_fresh in Hfresh. unfold video_by_id in Hfresh.
    rewrite find_app_last, Hfresh, String.eqb_refl. reflexivity.
  - intros video_id v. rewrite find_app_last.
    destruct (List.find _ (videos st)); [auto | discriminate].
Qed.

Lemma get_video_details_after_generate_witness :
  exists video st',
    ((forall v, v ∈ videos (initial_state Later.started) ->
                Video.video_id v <> Video.video_id video) ->
     get_video_details (Video.video_id video) st' = Json video 200)
    /\ (forall video_id v,
          get_video_details video_id (initial_state Later.started) = Json v 200 ->
          get_video_details video_id st' = Json v 200).
Proof.
  eexists _, _.
  eapply (get_video_details_after_generate Sample.studio
            (Sample.request "explain how black holes form" "u1")
            (initial_state Later.started) _ _ 200).
  reflexivity.
Defined.

(** X11.  The details of an id are refused with 404 exactly when no stored
    video has this id; otherwise the first stored video with this id is
    answered, so a later video with the same id is never seen. *)
Theorem get_video_details_first (video_id : string) (st : state) :
  (get_video_details video_id st = JsonError "Video not found" 404
   <-> forall v, v ∈ videos st -> Video.video_id v <> video_id)
  /\ (forall before v after,
        videos st = (before ++ v :: after)%list ->
        Video.video_id v = video_id ->
        (forall u, u ∈ before -> Video.video_id u <> video_id) ->
        get_video_details video_id st = Json v 200).
Proof.
  unfold get_video_details. split.
  - rewrite <- video_by_id_fresh. destruct (video_by_id video_id st); split; congruence.
  - intros before v after Hvs Hid Hbefore. unfold video_by_id. rewrite Hvs.
    clear Hvs. induction before as [|u before IH]; cbn.
    + rewrite Hid, String.eqb_refl. reflexivity.
    + assert (Hu : String.eqb (Video.video_id u) video_id = false)
        by (apply String.eqb_neq, Hbefore; left).
      rewrite Hu. apply IH. intros u' Hu'. apply Hbefore. right. exact Hu'.
Qed.

(** ** The quiz of a video *)

(** X12.  After a successful generation, asking for the quiz of the new
    video answers the quiz that the generation answered and changes nothing
    in the store, whatever the model would reply by then. *)
Theorem get_video_quiz_after_generate w w' data st video quiz code st' :
  generate_video w data st = (Response (GeneratedBody video quiz) code, st') ->
  get_video_quiz w' (Video.video_id video) st' = (Json quiz 200, st').
Proof.
  intros H. destruct (generate_video_inv _ _ _ _ _ _ _ H)
    as (prompt & user_id & _ & _ & _ & _ & _ & _ & _ & _ & Hqs & _).
  unfold get_video_quiz. rewrite Hqs, lookup_insert_eq. reflexivity.
Qed.

Lemma get_video_quiz_after_generate_witness :
  exists video quiz st',
    generate_video Sample.studio (Sample.request "explain how black holes form" "u1") Sample.st0
    = (Response (GeneratedBody video quiz) 200, st')
    /\ get_video_quiz Later.silent (Video.video_id video) st' = (Json quiz 200, st').
Proof.
  eexists _, _, _. split; [reflexivity|].
  apply (get_video_quiz_after_generate Sample.studio Later.silent
           (Sample.request "explain how black holes form" "u1") Sample.st0 _ _ 200).
  reflexivity.
Defined.

(** X13.  The quiz of a video is made once: asking again, in whatever world,
    gives the same answer as the first time and leaves the store as the first
    request left it.  The videos are never changed by these requests. *)
Theorem get_video_quiz_idempotent (w w' : world) (video_id : string) (st : state) :
  get_video_quiz w' video_id (get_video_quiz w video_id st).2 = get_video_quiz w video_id st
  /\ videos (get_video_quiz w video_id st).2 = videos st.
Proof.
  unfold get_video_quiz.
  destruct (quizzes st !! video_id) as [quiz|] eqn:Hq.
  - cbn [snd]. rewrite Hq. auto.
  - destruct (video_by_id video_id st) as [video|] eqn:Hv.
    + pose proof (generate_quiz_store w (Video.caption_content video) video_id st)
        as (Hvs & _).
      destruct (generate_quiz_with_gemini _ _ _ _) as [quiz st1].
      cbn [fst snd quizzes_set quizzes videos] in *.
      rewrite lookup_insert_eq. auto.
    + cbn [snd]. rewrite Hq, Hv. auto.
Qed.

(** A video of the initial store gets its quiz at the first request, and
    keeps it when the model later fails. *)
Example initial_video_quiz_is_kept :
  (get_video_quiz Sample.studio "vid001" (initial_state Later.started)).1
  = (get_video_quiz Later.silent "vid001"
       (get_video_quiz Sample.studio "vid001" (initial_state Later.started)).2).1
  /\ quiz_questions
       (JDict (<["video_id" := JStr "vid001"]>
               (<["quiz_id" := JStr "quiz_00c0ffe0"]> Sample.four_questions)))
     = Some [Sample.q1; Sample.q2; Sample.q3; Sample.q4]
  /\ (get_video_quiz Sample.studio "vid001" (initial_state Later.started)).1
     = Json (JDict (<["video_id" := JStr "vid001"]>
                    (<["quiz_id" := JStr "quiz_00c0ffe0"]> Sample.four_questions))) 200
  /\ (get_video_quiz Sample.studio "vid404" (initial_state Later.started)).1
     = JsonError "Video not found" 404.
Proof. repeat split. Qed.

(** ** Listing and searching videos *)

(** X14.  After a successful generation the list of the requesting user is
    the former list followed by the new video, and the list of every other
    user is what it was. *)
Theorem get_user_videos_after_generate w data st video quiz code st' :
  generate_video w data st = (Response (GeneratedBody video quiz) code, st') ->
  get_user_videos (Video.user_id video) st'
  = Json (filter (fun v => Video.user_id v = Video.user_id video) (videos st) ++ [video])%list
      200
  /\ (forall user_id,
        user_id <> Video.user_id video ->
        get_user_videos user_id st' = get_user_videos user_id st).
Proof.
  intros H. destruct (generate_video_inv _ _ _ _ _ _ _ H)
    as (prompt & user_id & _ & _ & _ & _ & _ & _ & _ & Hvs & _).
  unfold get_user_videos. rewrite Hvs. split.
  - rewrite filter_app, filter_cons, decide_True by reflexivity. reflexivity.
  - intros u Hu. rewrite filter_app, filter_cons, decide_False by congruence.
    rewrite filter_nil, app_nil_r. reflexivity.
Qed.

Lemma get_user_videos_after_generate_witness :
  exists video st',
    get_user_videos (Video.user_id video) st'
    = Json (filter (fun v => Video.user_id v = Video.user_id video)
              (videos (initial_state Later.started)) ++ [video])%list 200
    /\ (forall user_id,
          user_id <> Video.user_id video ->
          get_user_videos user_id st' = get_user_videos user_id (initial_state Later.started)).
Proof.
  eexists _, _.
  eapply (get_user_videos_after_generate Sample.studio
            (Sample.request "explain how black holes form" "user123")
            (initial_state Later.started) _ _ 200).
  reflexivity.
Defined.





(** A search in capital letters over the initial store; tags are compared
    as they are stored, titles and captions in lower case. *)
Example search_initial_store :
  search_videos Sample.studio (Some "NEURAL") (initial_state Later.started)
  = FilteredVideos (drop 1 (initial_videos Later.started))
  /\ search_videos Sample.studio None (initial_state Later.started)
     = PopularVideos (popular_videos Sample.studio)
  /\ search_videos Sample.studio (Some "") (initial_state Later.started)
     = PopularVideos (popular_videos Sample.studio).
Proof. repeat split. Qed.

(** X16.  The summary of a generated video is asked of the model on the
    narration written from the prompt alone, whatever the pipeline rendered;
    an id without a video is answered 404. *)
Theorem get_video_summary_after_generate w w' data st video quiz code st' prompt :
  generate_video w data st = (Response (GeneratedBody video quiz) code, st') ->
  Request.prompt data = Some prompt ->
  ((forall v, v ∈ videos st -> Video.video_id v <> Video.video_id video) ->
   get_video_summary w' (Video.video_id video) st'
   = Json (summarize_transcript_with_gemini w' (caption_of prompt)) 200)
  /\ (forall video_id,
        (forall v, v ∈ videos st' -> Video.video_id v <> video_id) ->
        get_video_summary w' video_id st' = JsonError "Video not found" 404).
Proof.
  intros H Hprompt. destruct (generate_video_inv _ _ _ _ _ _ _ H)
    as (prompt' & user_id & Hp & _ & _ & _ & _ & Hvideo & _ & Hvs & _).
  assert (prompt' = prompt) as -> by congruence.
  unfold get_video_summary. split.
  - intros Hfresh. apply video_by_id_fresh in Hfresh.
    unfold video_by_id in *. rewrite Hvs, find_app_last, Hfresh, String.eqb_refl.
    rewrite Hvideo. reflexivity.
  - intros video_id Hnone. apply video_by_id_fresh in Hnone. rewrite Hnone. reflexivity.
Qed.

Lemma get_video_summary_after_generate_witness :
  exists video st',
    ((forall v, v ∈ videos Sample.st0 -> Video.video_id v <> Video.video_id video) ->
     get_video_summary Sample.studio (Video.video_id video) st'
     = Json (summarize_transcript_with_gemini Sample.studio (caption_of "black holes")) 200)
    /\ (forall video_id,
          (forall v, v ∈ videos st' -> Video.video_id v <> video_id) ->
          get_video_summary Sample.studio video_id st' = JsonError "Video not found" 404).
Proof.
  eexists _, _.
  eapply (get_video_summary_after_generate Later.silent Sample.studio
            (Sample.request "black holes" "u1") Sample.st0 _ _ 200 _ "black holes");
    reflexivity.
Defined.

(** ** Logging in *)

Lemma get_eq_str_true x s : get_eq_str x s = true <-> x = Some (JStr s).
Proof.
  destruct x as [[| | | |t| |]|]; cbn; try (split; [discriminate | intros [=]]).
  rewrite String.eqb_eq. split; [intros -> | intros [=]]; congruence.
Qed.

Lemma find_Some_elem {A : Type} (f : A -> bool) (l : list A) (x : A) :
  List.find f l = Some x -> x ∈ l /\ f x = true.
Proof.
  induction l as [|a l IH]; cbn; [discriminate|].
  destruct (f a) eqn:E.
  - intros [= <-]. split; [left | exact E].
  - intros H. destruct (IH H). split; [right|]; assumption.
Qed.

(** X17.  A login is accepted only with the exact email and the exact
    password of a stored user, and answers this user's id, name and email;
    every other request, be the email unknown, the password wrong or a field
    missing or no string, gets one and the same 401 answer.  When no two
    users share an email, every stored user is accepted with their own
    email and password. *)
Theorem login_sound_and_complete (us : list User.t) :
  (forall email password account,
     login us email password = Json account 200 ->
     exists u, u ∈ us
               /\ email = Some (JStr (User.email u))
               /\ password = Some (JStr (User.password u))
               /\ account = Account.Make (User.user_id u) (User.name u) (User.email u))
  /\ (forall email password,
        (exists account, login us email password = Json account 200)
        \/ login us email password = JsonError "Invalid credentials" 401)
  /\ (NoDup (User.email <$> us) ->
      forall u, u ∈ us ->
        login us (Some (JStr (User.email u))) (Some (JStr (User.password u)))
        = Json (Account.Make (User.user_id u) (User.name u) (User.email u)) 200).
Proof.
  split; [|split].
  - intros email password account. unfold login.
    destruct (List.find _ us) as [u|] eqn:Hfind; [|discriminate].
    apply find_Some_elem in Hfind as [Hin He].
    destruct (get_eq_str password (User.password u)) eqn:Hpw; [|discriminate].
    intros [= <-]. exists u.
    apply get_eq_str_true in He. apply get_eq_str_true in Hpw. auto.
  - intros email password. unfold login.
    destruct (List.find _ us) as [u|]; [|right; reflexivity].
    destruct (get_eq_str password (User.password u)); [left; eauto | right; reflexivity].
  - intros Hnodup u Hin. unfold login.
    induction us as [|a us IH]; [inversion Hin|].
    rewrite fmap_cons in Hnodup. apply NoDup_cons in Hnodup as [Hfresh Hnodup].
    cbn [List.find get_eq_str]. apply elem_of_cons in Hin as [->|Hin].
    + rewrite !String.eqb_refl. reflexivity.
    + assert (Hne : String.eqb (User.email u) (User.email a) = false).
      { apply String.eqb_neq. intros E. apply Hfresh. rewrite <- E.
        apply list_elem_of_fmap. eauto. }
      rewrite Hne. exact (IH Hnodup Hin).
Qed.

Lemma login_sound_and_complete_witness :
  login users (Some (JStr "alex.doe@example.com")) (Some (JStr "password123"))
  = Json (Account.Make "user123" "Alex Doe" "alex.doe@example.com") 200.
Proof.
  apply (proj2 (proj2 (login_sound_and_complete users))
           ltac:(repeat constructor; intros H; inversion H)
           (User.Make "user123" "Alex Doe" "alex.doe@example.com" "password123")).
  left.
Defined.

(** Refusals over the stored user: a wrong password, a password that is a
    number, a missing field, an unknown email. *)
Example login_refusals :
  login users (Some (JStr "alex.doe@example.com")) (Some (JStr "Password123"))
  = JsonError "Invalid credentials" 401
  /\ login users (Some (JStr "alex.doe@example.com")) (Some (JInt 123))
     = JsonError "Invalid credentials" 401
  /\ login users (Some (JStr "alex.doe@example.com")) None
     = JsonError "Invalid credentials" 401
  /\ login users (Some (JStr "eve@example.com")) (Some (JStr "password123"))
     = JsonError "Invalid credentials" 401.
Proof. repeat split. Qed.

(** ** More on scoring *)

Lemma filter_length_le {A : Type} (P : A -> Prop) `{forall x, Decision (P x)} (l : list A) :
  (length (filter P l) <= length l)%nat.
Proof.
  induction l as [|x l IH]; [reflexivity|]. rewrite filter_cons.
  destruct (decide (P x)); cbn; lia.
Qed.

(** X18.  On a quiz of four questions the percentage is 0, 25, 50, 75 or
    100 according to the number of correct answers, and the quiz is passed
    exactly with three or four of them. *)
Theorem submit_quiz_score_pass_mark quiz answers :
  length (Quiz.questions quiz) = 4%nat ->
  (ScoreResult.correct (submit_quiz_score quiz answers) <= 4)%nat
  /\ ScoreResult.percentage (submit_quiz_score quiz answers)
     = PyFloat (of_uint63
                  (Uint63.of_Z (25 * Z.of_nat (ScoreResult.correct
                                                  (submit_quiz_score quiz answers)))))
  /\ (ScoreResult.passed (submit_quiz_score quiz answers) = true
      <-> (3 <= ScoreResult.correct (submit_quiz_score quiz answers))%nat).
Proof.
  intros Htotal. unfold submit_quiz_score. rewrite count_correct_filter, Htotal.
  pose proof (filter_length_le (answered_correctly answers) (Quiz.questions quiz)) as Hle.
  rewrite Htotal in Hle.
  destruct (length (filter (answered_correctly answers) (Quiz.questions quiz)))
    as [|[|[|[|[|n]]]]]; try lia;
    (split; [cbn; lia|]); (split; [reflexivity|]);
    cbn [ScoreResult.passed ScoreResult.correct];
    (split; [try discriminate; intros _; lia | try reflexivity; lia]).
Qed.

Lemma submit_quiz_score_pass_mark_witness :
  (ScoreResult.correct (submit_quiz_score Sample.quiz4 Sample.answers3) <= 4)%nat
  /\ ScoreResult.percentage (submit_quiz_score Sample.quiz4 Sample.answers3)
     = PyFloat (of_uint63
                  (Uint63.of_Z (25 * Z.of_nat (ScoreResult.correct
                                                  (submit_quiz_score Sample.quiz4
                                                     Sample.answers3)))))
  /\ (ScoreResult.passed (submit_quiz_score Sample.quiz4 Sample.answers3) = true
      <-> (3 <= ScoreResult.correct (submit_quiz_score Sample.quiz4 Sample.answers3))%nat).
Proof.
  apply (submit_quiz_score_pass_mark Sample.quiz4 Sample.answers3). reflexivity.
Defined.

(** X19.  The score depends on the answers map only through the entries
    under the ids of the quiz: two maps that agree on these entries score
    alike, so entries under other keys change nothing. *)
Theorem submit_quiz_score_relevant_entries quiz answers answers' :
  (forall q, q ∈ Quiz.questions quiz ->
     answers !! pretty (Question.id q) = answers' !! pretty (Question.id q)) ->
  submit_quiz_score quiz answers = submit_quiz_score quiz answers'.
Proof.
  intros H. unfold submit_quiz_score.
  assert (Hcount : count_correct answers (Quiz.questions quiz)
                   = count_correct answers' (Quiz.questions quiz)).
  { unfold count_correct. generalize 0%nat.
    induction (Quiz.questions quiz) as [|q qs IH]; intros n; [reflexivity|].
    cbn [fold_left]. rewrite (H q) by left.
    apply IH. intros q' Hq'. apply H. right. exact Hq'. }
  rewrite Hcount. reflexivity.
Qed.

Lemma submit_quiz_score_relevant_entries_witness :
  submit_quiz_score Sample.quiz4 Sample.answers3
  = submit_quiz_score Sample.quiz4 (<["17" := JStr "gravity"]> Sample.answers3).
Proof.
  apply (submit_quiz_score_relevant_entries Sample.quiz4 Sample.answers3
           (<["17" := JStr "gravity"]> Sample.answers3)).
  intros q Hq. symmetry. apply lookup_insert_ne.
  repeat (apply elem_of_cons in Hq as [->|Hq]; [vm_compute; discriminate|]).
  inversion Hq.
Defined.
